(** * Order service (src/orders/order.service.js)

    A shallow embedding of the order service: the Sequelize tables it
    reads and writes are components of an explicit database state, every
    [async] function is a computation in a state-and-exception monad, and
    a JavaScript [throw] is an error result that keeps whatever was
    written before it (the source opens no transaction). *)

From stdpp Require Import gmap strings list fin_maps sorting pretty.

Open Scope Z_scope.

(** ** Data model *)

(** Modelled from the spec: the Order model's [orderStatus] column is an
    enum (spec 3 and 4.1); the model file that declares it is not part of
    the service source.  The service compares it with the string literals
    given by [status_name]. *)
Inductive OrderStatus := pending | processing | shipped | delivered | cancelled.

Global Instance OrderStatus_eq_dec : EqDecision OrderStatus.
Proof. solve_decision. Defined.

Definition status_name (s : OrderStatus) : string :=
  match s with
  | pending => "pending"
  | processing => "processing"
  | shipped => "shipped"
  | delivered => "delivered"
  | cancelled => "cancelled"
  end.

(** Rows of the tables.  A row's primary key [id] is the key under which
    the table holds it.  Numbers are integers: prices are whole amounts and
    fractions are not represented.  The source computes with JavaScript
    numbers, whose products and differences of integers are the integers'
    own as long as operands and result are safe integers ([safe_integer]);
    the theorems that state the value of a product or of a difference over
    arbitrary operands assume as much. *)
Definition safe_integer (n : Z) : Prop := - 2 ^ 53 < n < 2 ^ 53.

Record Account := { email : string; role : string }.

Record Product := {
  name : string;
  price : Z;
  productStatus : string;
  isAvailable : bool }.

Record Inventory := {
  inv_id : Z;
  inv_productId : Z;
  inv_quantity : Z }.

Record Order := {
  AccountId : Z;
  productId : Z;
  quantity : Z;
  totalAmount : Z;
  orderStatus : OrderStatus;
  shippingAddress : string;
  createdAt : Z }.

(** Modelled from the spec: the record written by [logOrderActivity] of
    ./orderActivityLogger, which is not part of the service source
    (spec 3, OrderActivity; spec 6, [record]). *)
Record OrderActivity := {
  act_accountId : Z;
  act_orderId : Z;
  act_action : string;
  act_description : string;
  act_ipAddress : string;
  act_browserInfo : string;
  act_timestamp : Z }.

(** One entry per write the service issues, in the order it issues them. *)
Inductive Write :=
| SaveOrder (id : Z) (o : Order)
| RecordActivity (a : OrderActivity)
| SaveInventory (i : Inventory)
| SaveProduct (id : Z) (p : Product).

(** The database [db] of _helpers/db together with the activity log. *)
Record Db := {
  db_Account : gmap Z Account;
  db_Product : gmap Z Product;
  db_Inventory : list Inventory;
  db_Order : gmap Z Order;
  db_activities : list OrderActivity;
  db_journal : list Write;
  db_clock : Z }.

(** ** Thrown values *)

Inductive Error :=
| AccountNotFound
| ProductNotFound
| ProductUnavailable
| InventoryMissing
| InsufficientStock (available : Z)
| OrderNotFound
| OrderAlreadyCancelled
| OrderNotCancellable
| CannotUpdateCancelled
| CannotProcessCancelled
| CannotShipCancelled
| CannotDeliverCancelled
| UnauthorizedAccess
| ReferenceError (identifier : string)
| UniqueConstraintError.

(** The value the source throws for each error. *)
Definition message (e : Error) : string :=
  match e with
  | AccountNotFound => "Account not found"
  | ProductNotFound => "Product not found"
  | ProductUnavailable => "Product is not available"
  | InventoryMissing => "Inventory not found for this product"
  | InsufficientStock q =>
      "Insufficient stock. Only " +:+ pretty q +:+ " items available."
  | OrderNotFound => "Order not found"
  | OrderAlreadyCancelled => "Order is already cancelled"
  | OrderNotCancellable => "Cannot cancel order that has been shipped or delivered"
  | CannotUpdateCancelled => "Cannot update a cancelled order"
  | CannotProcessCancelled => "Cannot process a cancelled order"
  | CannotShipCancelled => "Cannot ship a cancelled order"
  | CannotDeliverCancelled => "Cannot deliver a cancelled order"
  | UnauthorizedAccess => "Order not found or unauthorized access"
  | ReferenceError x => x +:+ " is not defined"
  | UniqueConstraintError => "Validation error"
  end.

(** ** The monad of service calls *)

Definition M (A : Type) : Type := Db → (Error + A) * Db.

Global Instance M_ret : MRet M := λ A a db, (inr a, db).

Global Instance M_bind : MBind M := λ A B f m db,
  match m db with
  | (inl e, db') => (inl e, db')
  | (inr a, db') => f a db'
  end.

Definition throw {A} (e : Error) : M A := λ db, (inl e, db).
Definition gets {A} (f : Db → A) : M A := λ db, (inr (f db), db).
Definition modify (f : Db → Db) : M unit := λ db, (inr tt, f db).

(** [if (!x) throw e] *)
Definition orThrow {A} (e : Error) (x : option A) : M A :=
  match x with
  | Some a => mret a
  | None => throw e
  end.

(** [if (c) throw e] *)
Definition throwIf (c : bool) (e : Error) : M unit :=
  if c then throw e else mret tt.

(** ** The tables *)

Definition write (w : Write) (db : Db) : Db :=
  {| db_Account := db_Account db; db_Product := db_Product db;
     db_Inventory := db_Inventory db; db_Order := db_Order db;
     db_activities := db_activities db;
     db_journal := db_journal db ++ [w]; db_clock := db_clock db |}.

Definition with_Product (f : gmap Z Product → gmap Z Product) (db : Db) : Db :=
  {| db_Account := db_Account db; db_Product := f (db_Product db);
     db_Inventory := db_Inventory db; db_Order := db_Order db;
     db_activities := db_activities db;
     db_journal := db_journal db; db_clock := db_clock db |}.

Definition with_Inventory (f : list Inventory → list Inventory) (db : Db) : Db :=
  {| db_Account := db_Account db; db_Product := db_Product db;
     db_Inventory := f (db_Inventory db); db_Order := db_Order db;
     db_activities := db_activities db;
     db_journal := db_journal db; db_clock := db_clock db |}.

Definition with_Order (f : gmap Z Order → gmap Z Order) (db : Db) : Db :=
  {| db_Account := db_Account db; db_Product := db_Product db;
     db_Inventory := db_Inventory db; db_Order := f (db_Order db);
     db_activities := db_activities db;
     db_journal := db_journal db; db_clock := db_clock db |}.

Definition with_activities (f : list OrderActivity → list OrderActivity)
    (db : Db) : Db :=
  {| db_Account := db_Account db; db_Product := db_Product db;
     db_Inventory := db_Inventory db; db_Order := db_Order db;
     db_activities := f (db_activities db);
     db_journal := db_journal db; db_clock := db_clock db |}.

(** [db.Account.findByPk(id)] *)
Definition Account_findByPk (id : Z) : M (option Account) :=
  gets (λ db, db_Account db !! id).

(** [db.Product.findByPk(id)] and [product.save()] *)
Definition Product_findByPk (id : Z) : M (option Product) :=
  gets (λ db, db_Product db !! id).

Definition Product_save (id : Z) (p : Product) : M unit :=
  modify (λ db, write (SaveProduct id p) (with_Product <[id:=p]> db)).

(** [db.Inventory.findOne({ where: { productId } })]: the first row of the
    table with that [productId]. *)
Definition has_productId (pid : Z) (i : Inventory) : bool :=
  bool_decide (inv_productId i = pid).

Definition Inventory_findOne (pid : Z) : M (option Inventory) :=
  gets (λ db, List.find (has_productId pid) (db_Inventory db)).

(** [inventory.save()]: an update of the rows with the instance's key. *)
Definition replace_inventory (i r : Inventory) : Inventory :=
  if bool_decide (inv_id r = inv_id i) then i else r.

Definition Inventory_save (i : Inventory) : M unit :=
  modify (λ db, write (SaveInventory i) (with_Inventory (fmap (replace_inventory i)) db)).

(** [db.Order.findByPk(id)] and [order.save()] of a stored order *)
Definition Order_findByPk (id : Z) : M (option Order) :=
  gets (λ db, db_Order db !! id).

Definition Order_save (id : Z) (o : Order) : M unit :=
  modify (λ db, write (SaveOrder id o) (with_Order <[id:=o]> db)).

(** The key an auto-incremented insert receives: one past the largest. *)
Definition max_key (orders : gmap Z Order) : Z :=
  map_fold (λ k _ acc, Z.max k acc) 0 orders.

Definition next_id (orders : gmap Z Order) : Z := 1 + max_key orders.

(** The attributes [createOrder] hands to [new db.Order({...})]. *)
Record OrderFields := {
  f_AccountId : Z;
  f_productId : Z;
  f_quantity : Z;
  f_totalAmount : Z;
  f_shippingAddress : string }.

(** Modelled from the spec: the defaults of the Order model, which is not
    part of the service source: a new order starts [pending] (spec 4.1,
    initial state) and [createdAt] is the time of the insert (spec 3). *)
Definition new_Order (f : OrderFields) (now : Z) : Order :=
  {| AccountId := f_AccountId f; productId := f_productId f;
     quantity := f_quantity f; totalAmount := f_totalAmount f;
     orderStatus := pending; shippingAddress := f_shippingAddress f;
     createdAt := now |}.

(** [order.save()] of a new instance; returns [order.id]. *)
Definition Order_insert (f : OrderFields) : M Z :=
  id ← gets (λ db, next_id (db_Order db));
  o ← gets (λ db, new_Order f (db_clock db));
  _ ← Order_save id o;
  mret id.

(** Modelled from the spec: [logOrderActivity] of ./orderActivityLogger,
    which is not part of the service source, appends one record to an
    append-only log (spec 6, [record]). *)
Definition new_activity (now accountId orderId : Z) (action description : string)
    (ipAddress browserInfo : string) : OrderActivity :=
  {| act_accountId := accountId; act_orderId := orderId;
     act_action := action; act_description := description;
     act_ipAddress := ipAddress; act_browserInfo := browserInfo;
     act_timestamp := now |}.

Definition logOrderActivity (accountId orderId : Z) (action description : string)
    (ipAddress browserInfo : string) : M unit :=
  a ← gets (λ db,
    new_activity (db_clock db) accountId orderId action description
      ipAddress browserInfo);
  modify (λ db, write (RecordActivity a) (with_activities (λ l, l ++ [a]) db)).

(** The projections of the [include] clauses. *)
Record AccountRef := { ref_id : Z; ref_email : string }.
Record ProductRef := { pref_id : Z; pref_name : string; pref_price : Z }.

Definition include_Account (db : Db) (id : Z) : option AccountRef :=
  a ← db_Account db !! id; Some {| ref_id := id; ref_email := email a |}.

Definition include_Product (db : Db) (id : Z) : option ProductRef :=
  p ← db_Product db !! id;
  Some {| pref_id := id; pref_name := name p; pref_price := price p |}.

(** [db.Order.findByPk(id, { include: [Account, Product] })] *)
Record OrderDetail := {
  det_id : Z;
  det_order : Order;
  det_Account : option AccountRef;
  det_Product : option ProductRef }.

Definition Order_findByPk_include (id : Z) : M (option OrderDetail) :=
  gets (λ db,
    o ← db_Order db !! id;
    Some {| det_id := id; det_order := o;
            det_Account := include_Account db (AccountId o);
            det_Product := include_Product db (productId o) |}).

(** ** The service *)

(** *** getAllOrders *)

(** The [where] condition chosen by the caller's role. *)
Definition whereCondition (role : string) (accountId : Z) (o : Order) : bool :=
  if bool_decide (role = "User")
  then bool_decide (AccountId o = accountId)
       && negb (bool_decide (orderStatus o = cancelled))
  else bool_decide (orderStatus o ∈ [pending; processing; shipped; delivered]).

(** A row of the listing: the selected [attributes] and the [include]d
    projections. *)
Record OrderRow := {
  row_id : Z;
  row_totalAmount : Z;
  row_orderStatus : OrderStatus;
  row_shippingAddress : string;
  row_createdAt : Z;
  row_AccountId : Z;
  row_quantity : Z;
  row_Account : option AccountRef;
  row_Product : option ProductRef }.

Definition select_row (role : string) (db : Db) (r : Z * Order) : OrderRow :=
  {| row_id := r.1;
     row_totalAmount := totalAmount r.2;
     row_orderStatus := orderStatus r.2;
     row_shippingAddress := shippingAddress r.2;
     row_createdAt := createdAt r.2;
     row_AccountId := AccountId r.2;
     row_quantity := quantity r.2;
     row_Account :=
       if bool_decide (role ≠ "User") then include_Account db (AccountId r.2)
       else None;
     row_Product := include_Product db (productId r.2) |}.

(** [order: [['createdAt', 'DESC']]] *)
Definition createdAt_DESC (r1 r2 : Z * Order) : Prop :=
  createdAt r2.2 ≤ createdAt r1.2.

Global Instance createdAt_DESC_dec : RelDecision createdAt_DESC.
Proof. intros r1 r2. unfold createdAt_DESC. apply _. Defined.

(** [db.Order.findAll({ where, attributes, include, order })] *)
Definition Order_findAll (role : string) (cond : Order → bool) : M (list OrderRow) :=
  gets (λ db,
    select_row role db <$>
      merge_sort createdAt_DESC
        (List.filter (λ r, cond r.2) (map_to_list (db_Order db)))).

Definition getAllOrders (role : string) (accountId : Z) : M (list OrderRow) :=
  Order_findAll role (whereCondition role accountId).

(** *** getOrderById *)

Definition getOrderById (id : Z) : M (option Order) := Order_findByPk id.

(** *** createOrder *)

(** The keys of the input of [createOrder] that the contract names
    (spec 4.2); [quantity] may be left out.  Of these, [...params] hands
    [shippingAddress] to the new order; [AccountId], [productId] and
    [quantity] are overridden by the keys that follow the spread.  A
    [params] object may carry further columns of the order, which the
    spread hands on as well: see [SpreadColumns] and [createOrder_spread]. *)
Record CreateParams := {
  p_AccountId : Z;
  p_productId : Z;
  p_quantity : option Z;
  p_shippingAddress : string;
  p_ipAddress : string;
  p_browserInfo : string }.

(** [q || d] on an optional number: [undefined] and [0] are falsy. *)
Definition orDefault (q : option Z) (d : Z) : Z :=
  match q with
  | None => d
  | Some 0 => d
  | Some k => k
  end.

(** [createOrder(params)] for a [params] object that carries the keys of
    the contract and no other column of the order; [createOrder_spread]
    below is the function on any [params], and agrees with this one on
    these.  [account.id] and [product.id] are the keys the rows were found
    under; [inventory.quantity -= requestedQuantity] followed by
    [inventory.save()] stores the instance with the reduced quantity. *)
Definition createOrder (params : CreateParams) : M (option OrderDetail) :=
  account ← Account_findByPk (p_AccountId params) ≫= orThrow AccountNotFound;
  let account_id := p_AccountId params in
  product ← Product_findByPk (p_productId params) ≫= orThrow ProductNotFound;
  let product_id := p_productId params in
  _ ← throwIf (bool_decide (productStatus product ≠ "active")) ProductUnavailable;
  inventory ← Inventory_findOne product_id ≫= orThrow InventoryMissing;
  let requestedQuantity := orDefault (p_quantity params) 1 in
  _ ← throwIf (bool_decide (requestedQuantity > inv_quantity inventory))
        (InsufficientStock (inv_quantity inventory));
  let totalAmount := price product * requestedQuantity in
  order_id ← Order_insert
    {| f_AccountId := account_id; f_productId := product_id;
       f_quantity := requestedQuantity; f_totalAmount := totalAmount;
       f_shippingAddress := p_shippingAddress params |};
  _ ← logOrderActivity account_id order_id "created"
        ("Created order for " +:+ pretty requestedQuantity
           +:+ " units of product " +:+ name product)
        (p_ipAddress params) (p_browserInfo params);
  _ ← Inventory_save
        {| inv_id := inv_id inventory; inv_productId := inv_productId inventory;
           inv_quantity := inv_quantity inventory - requestedQuantity |};
  Order_findByPk_include order_id.

(** The columns of the order, other than those of the contract, that a
    [params] object may carry.  [{ ...params, quantity, totalAmount,
    productId, AccountId }] (lines 72-78) hands every key of [params] to
    [new db.Order], and the four keys that follow override none of these
    three. *)
Record SpreadColumns := {
  x_id : option Z;
  x_orderStatus : option OrderStatus;
  x_createdAt : option Z }.

Definition no_spread : SpreadColumns :=
  {| x_id := None; x_orderStatus := None; x_createdAt := None |}.

(** The instance built from the spread columns and the computed ones: a
    column that [params] carries takes the place of the model's default. *)
Definition new_Order_spread (x : SpreadColumns) (f : OrderFields) (now : Z)
    : Order :=
  {| AccountId := f_AccountId f; productId := f_productId f;
     quantity := f_quantity f; totalAmount := f_totalAmount f;
     orderStatus := default pending (x_orderStatus x);
     shippingAddress := f_shippingAddress f;
     createdAt := default now (x_createdAt x) |}.

(** [order.save()] of a new instance that may carry its own [id]: the
    insert is refused, before anything is written, when an order is stored
    under that key. *)
Definition Order_insert_spread (x : SpreadColumns) (f : OrderFields) : M Z :=
  id ← gets (λ db, default (next_id (db_Order db)) (x_id x));
  taken ← gets (λ db, bool_decide (is_Some (db_Order db !! id)));
  _ ← throwIf taken UniqueConstraintError;
  o ← gets (λ db, new_Order_spread x f (db_clock db));
  _ ← Order_save id o;
  mret id.

(** [createOrder(params)] for any [params]: the keys of the contract in
    [params], the other columns it carries in [extra]. *)
Definition createOrder_spread (extra : SpreadColumns) (params : CreateParams)
    : M (option OrderDetail) :=
  account ← Account_findByPk (p_AccountId params) ≫= orThrow AccountNotFound;
  let account_id := p_AccountId params in
  product ← Product_findByPk (p_productId params) ≫= orThrow ProductNotFound;
  let product_id := p_productId params in
  _ ← throwIf (bool_decide (productStatus product ≠ "active")) ProductUnavailable;
  inventory ← Inventory_findOne product_id ≫= orThrow InventoryMissing;
  let requestedQuantity := orDefault (p_quantity params) 1 in
  _ ← throwIf (bool_decide (requestedQuantity > inv_quantity inventory))
        (InsufficientStock (inv_quantity inventory));
  let totalAmount := price product * requestedQuantity in
  order_id ← Order_insert_spread extra
    {| f_AccountId := account_id; f_productId := product_id;
       f_quantity := requestedQuantity; f_totalAmount := totalAmount;
       f_shippingAddress := p_shippingAddress params |};
  _ ← logOrderActivity account_id order_id "created"
        ("Created order for " +:+ pretty requestedQuantity
           +:+ " units of product " +:+ name product)
        (p_ipAddress params) (p_browserInfo params);
  _ ← Inventory_save
        {| inv_id := inv_id inventory; inv_productId := inv_productId inventory;
           inv_quantity := inv_quantity inventory - requestedQuantity |};
  Order_findByPk_include order_id.

(** *** updateOrder *)

(** The [params] of [updateOrder]: the columns it carries are assigned
    over the order, the others are kept. *)
Record OrderPatch := {
  u_AccountId : option Z;
  u_productId : option Z;
  u_quantity : option Z;
  u_totalAmount : option Z;
  u_orderStatus : option OrderStatus;
  u_shippingAddress : option string;
  u_createdAt : option Z }.

(** [Object.assign(order, params)] *)
Definition assign (order : Order) (params : OrderPatch) : Order :=
  {| AccountId := default (AccountId order) (u_AccountId params);
     productId := default (productId order) (u_productId params);
     quantity := default (quantity order) (u_quantity params);
     totalAmount := default (totalAmount order) (u_totalAmount params);
     orderStatus := default (orderStatus order) (u_orderStatus params);
     shippingAddress := default (shippingAddress order) (u_shippingAddress params);
     createdAt := default (createdAt order) (u_createdAt params) |}.

Definition updateOrder (id : Z) (params : OrderPatch) (actor : Z)
    (ipAddress browserInfo : string) : M Order :=
  order ← Order_findByPk id ≫= orThrow OrderNotFound;
  _ ← throwIf (bool_decide (orderStatus order = cancelled)) CannotUpdateCancelled;
  let oldStatus := orderStatus order in
  let order := assign order params in
  _ ← Order_save id order;
  _ ← logOrderActivity actor id "updated"
        ("Updated order. Status changed from '" +:+ status_name oldStatus
           +:+ "' to '" +:+ status_name (orderStatus order) +:+ "'")
        ipAddress browserInfo;
  mret order.

(** *** The status transitions *)

Definition set_orderStatus (s : OrderStatus) (o : Order) : Order :=
  {| AccountId := AccountId o; productId := productId o;
     quantity := quantity o; totalAmount := totalAmount o;
     orderStatus := s; shippingAddress := shippingAddress o;
     createdAt := createdAt o |}.

Definition set_isAvailable (b : bool) (p : Product) : Product :=
  {| name := name p; price := price p; productStatus := productStatus p;
     isAvailable := b |}.

Definition cancelOrder (id : Z) (actor : Z) (ipAddress browserInfo : string)
    : M Order :=
  order ← getOrderById id ≫= orThrow OrderNotFound;
  _ ← throwIf (bool_decide (orderStatus order = cancelled)) OrderAlreadyCancelled;
  _ ← throwIf (bool_decide (orderStatus order ∈ [shipped; delivered]))
        OrderNotCancellable;
  let oldStatus := orderStatus order in
  let order := set_orderStatus cancelled order in
  _ ← Order_save id order;
  _ ← logOrderActivity actor id "cancelled"
        ("Cancelled order. Previous status: " +:+ status_name oldStatus)
        ipAddress browserInfo;
  product ← Product_findByPk (productId order);
  _ ← match product with
      | Some product => Product_save (productId order) (set_isAvailable false product)
      | None => mret tt
      end;
  mret order.

(** [db.Order.findOne({ where: { id, AccountId: accountId } })] *)
Definition Order_findOne (id accountId : Z) : M (option Order) :=
  gets (λ db,
    o ← db_Order db !! id;
    if bool_decide (AccountId o = accountId) then Some o else None).

Definition trackOrderStatus (id accountId : Z) : M OrderStatus :=
  order ← Order_findOne id accountId ≫= orThrow UnauthorizedAccess;
  mret (orderStatus order).

Definition processOrder (id : Z) (actor : Z) (ipAddress browserInfo : string)
    : M unit :=
  order ← getOrderById id ≫= orThrow OrderNotFound;
  _ ← throwIf (bool_decide (orderStatus order = cancelled)) CannotProcessCancelled;
  let oldStatus := orderStatus order in
  let order := set_orderStatus processing order in
  _ ← Order_save id order;
  logOrderActivity actor id "processed"
    ("Processed order. Status changed from '" +:+ status_name oldStatus
       +:+ "' to 'processing'")
    ipAddress browserInfo.

Definition shipOrder (id : Z) : M unit :=
  order ← getOrderById id ≫= orThrow OrderNotFound;
  _ ← throwIf (bool_decide (orderStatus order = cancelled)) CannotShipCancelled;
  Order_save id (set_orderStatus shipped order).

Definition deliverOrder (id : Z) : M unit :=
  order ← getOrderById id ≫= orThrow OrderNotFound;
  _ ← throwIf (bool_decide (orderStatus order = cancelled)) CannotDeliverCancelled;
  Order_save id (set_orderStatus delivered order).

(** *** getOrderActivities *)

(** The identifiers the module binds: those of its three [require]s
    (line 3 destructures [logOrderActivity] out of the logger module and
    binds no name to the module itself) and its function declarations.
    Evaluating an identifier that neither the module nor Node binds throws
    a [ReferenceError]. *)
Definition module_scope : list string :=
  [ "db"; "Sequelize"; "logOrderActivity"; "getAllOrders"; "getOrderById";
    "createOrder"; "updateOrder"; "cancelOrder"; "trackOrderStatus";
    "processOrder"; "shipOrder"; "deliverOrder"; "getOrderActivities" ].

Definition identifier (x : string) : M unit :=
  throwIf (bool_decide (x ∉ module_scope)) (ReferenceError x).

Section getOrderActivities.
Context {Filters : Type}.

(** Modelled from the spec: the query interface of the Activity Logger
    (spec 6, [query(accountId, orderId, filters)]), which is not part of
    the service source; its filters are opaque to the service. *)
Variable logger_getOrderActivities : Z → Z → Filters → M (list OrderActivity).

Definition getOrderActivities (orderId actor : Z) (filters : Filters)
    : M (list OrderActivity) :=
  order ← getOrderById orderId ≫= orThrow OrderNotFound;
  _ ← identifier "orderActivityLogger";
  logger_getOrderActivities actor orderId filters.
End getOrderActivities.

(** ** Sequences of calls *)

(** The calls that write to the database. *)
Inductive Call :=
| CreateOrder (params : CreateParams)
| UpdateOrder (id : Z) (params : OrderPatch) (actor : Z) (ip browser : string)
| CancelOrder (id : Z) (actor : Z) (ip browser : string)
| ProcessOrder (id : Z) (actor : Z) (ip browser : string)
| ShipOrder (id : Z)
| DeliverOrder (id : Z).

(** The database a call leaves behind, whether it returns or throws. *)
Definition call (c : Call) (db : Db) : Db :=
  match c with
  | CreateOrder params => (createOrder params db).2
  | UpdateOrder id params actor ip browser =>
      (updateOrder id params actor ip browser db).2
  | CancelOrder id actor ip browser => (cancelOrder id actor ip browser db).2
  | ProcessOrder id actor ip browser => (processOrder id actor ip browser db).2
  | ShipOrder id => (shipOrder id db).2
  | DeliverOrder id => (deliverOrder id db).2
  end.

Definition calls (cs : list Call) (db : Db) : Db := foldl (flip call) db cs.

(** An [updateOrder] whose [params] carry no [totalAmount]; every other
    call qualifies. *)
Definition keeps_totalAmount (c : Call) : Prop :=
  match c with
  | UpdateOrder _ params _ _ _ => u_totalAmount params = None
  | _ => True
  end.

(** The order a call addresses; [createOrder] addresses none. *)
Definition target (c : Call) : option Z :=
  match c with
  | CreateOrder _ => None
  | UpdateOrder id _ _ _ _ | CancelOrder id _ _ _ | ProcessOrder id _ _ _
  | ShipOrder id | DeliverOrder id => Some id
  end.

(** What a call throws, if it throws. *)
Definition error_of {A} (r : (Error + A) * Db) : option Error :=
  match r.1 with
  | inl e => Some e
  | inr _ => None
  end.

Definition thrown (c : Call) (db : Db) : option Error :=
  match c with
  | CreateOrder params => error_of (createOrder params db)
  | UpdateOrder id params actor ip browser =>
      error_of (updateOrder id params actor ip browser db)
  | CancelOrder id actor ip browser => error_of (cancelOrder id actor ip browser db)
  | ProcessOrder id actor ip browser => error_of (processOrder id actor ip browser db)
  | ShipOrder id => error_of (shipOrder id db)
  | DeliverOrder id => error_of (deliverOrder id db)
  end.

(** The status that [processOrder], [shipOrder] and [deliverOrder] assign. *)
Definition assigned_status (c : Call) : option OrderStatus :=
  match c with
  | ProcessOrder _ _ _ _ => Some processing
  | ShipOrder _ => Some shipped
  | DeliverOrder _ => Some delivered
  | _ => None
  end.

(** ** A small shop used in the examples *)

Definition alice : Account := {| email := "alice@example.org"; role := "User" |}.
Definition bob : Account := {| email := "bob@example.org"; role := "Admin" |}.

Definition lamp : Product :=
  {| name := "lamp"; price := 10; productStatus := "active"; isAvailable := true |}.

Definition lamp_stock : Inventory :=
  {| inv_id := 1; inv_productId := 7; inv_quantity := 5 |}.

Definition an_order (account : Z) (s : OrderStatus) (t : Z) : Order :=
  {| AccountId := account; productId := 7; quantity := 3; totalAmount := 30;
     orderStatus := s; shippingAddress := "1 Main Street"; createdAt := t |}.

Definition shop : Db :=
  {| db_Account := {[ 1 := alice; 2 := bob ]};
     db_Product := {[ 7 := lamp ]};
     db_Inventory := [lamp_stock];
     db_Order := {[ 1 := an_order 1 pending 100;
                    2 := an_order 1 shipped 200;
                    3 := an_order 2 cancelled 300;
                    4 := an_order 2 processing 400;
                    5 := an_order 1 delivered 150 ]};
     db_activities := [];
     db_journal := [];
     db_clock := 1000 |}.

(** An update that carries only a [totalAmount]. *)
Definition reprice (t : Z) : OrderPatch :=
  {| u_AccountId := None; u_productId := None; u_quantity := None;
     u_totalAmount := Some t; u_orderStatus := None;
     u_shippingAddress := None; u_createdAt := None |}.

(** An update that carries only a [shippingAddress]. *)
Definition readdress (a : string) : OrderPatch :=
  {| u_AccountId := None; u_productId := None; u_quantity := None;
     u_totalAmount := None; u_orderStatus := None;
     u_shippingAddress := Some a; u_createdAt := None |}.

(** An update that carries only an [orderStatus]. *)
Definition restatus (s : OrderStatus) : OrderPatch :=
  {| u_AccountId := None; u_productId := None; u_quantity := None;
     u_totalAmount := None; u_orderStatus := Some s;
     u_shippingAddress := None; u_createdAt := None |}.

(** An update that carries nothing: [updateOrder(id, {}, ...)]. *)
Definition no_change : OrderPatch :=
  {| u_AccountId := None; u_productId := None; u_quantity := None;
     u_totalAmount := None; u_orderStatus := None;
     u_shippingAddress := None; u_createdAt := None |}.

Definition buy (q : option Z) : CreateParams :=
  {| p_AccountId := 1; p_productId := 7; p_quantity := q;
     p_shippingAddress := "1 Main Street"; p_ipAddress := "127.0.0.1";
     p_browserInfo := "Firefox" |}.

(** ** Running the monad *)

Section run.
Context {A B : Type}.
Implicit Types (db : Db) (e : Error).

Lemma run_bind (m : M A) (k : A → M B) db :
  (m ≫= k) db =
  match m db with
  | (inl e, db') => (inl e, db')
  | (inr a, db') => k a db'
  end.
Proof. reflexivity. Qed.

Lemma run_ret (a : A) db : mret (M:=M) a db = (inr a, db).
Proof. reflexivity. Qed.

Lemma run_throw e db : throw (A:=A) e db = (inl e, db).
Proof. reflexivity. Qed.

Lemma run_gets (f : Db → A) db : gets f db = (inr (f db), db).
Proof. reflexivity. Qed.

Lemma run_orThrow_Some e (a : A) db : orThrow e (Some a) db = (inr a, db).
Proof. reflexivity. Qed.

Lemma run_orThrow_None e db : orThrow (A:=A) e None db = (inl e, db).
Proof. reflexivity. Qed.
End run.

Lemma run_modify (f : Db → Db) (db : Db) : modify f db = (inr tt, f db).
Proof. reflexivity. Qed.

Lemma run_throwIf_true e (db : Db) : throwIf true e db = (inl e, db).
Proof. reflexivity. Qed.

Lemma run_throwIf_false e (db : Db) : throwIf false e db = (inr tt, db).
Proof. reflexivity. Qed.

Lemma run_Account_findByPk id db :
  Account_findByPk id db = (inr (db_Account db !! id), db).
Proof. reflexivity. Qed.

Lemma run_Product_findByPk id db :
  Product_findByPk id db = (inr (db_Product db !! id), db).
Proof. reflexivity. Qed.

Lemma run_Product_save id p db :
  Product_save id p db =
  (inr tt, write (SaveProduct id p) (with_Product <[id:=p]> db)).
Proof. reflexivity. Qed.

Lemma run_Inventory_findOne pid db :
  Inventory_findOne pid db =
  (inr (List.find (has_productId pid) (db_Inventory db)), db).
Proof. reflexivity. Qed.

Lemma run_Inventory_save i db :
  Inventory_save i db =
  (inr tt,
   write (SaveInventory i) (with_Inventory (fmap (replace_inventory i)) db)).
Proof. reflexivity. Qed.

Lemma run_Order_findByPk id db :
  Order_findByPk id db = (inr (db_Order db !! id), db).
Proof. reflexivity. Qed.

Lemma run_getOrderById id db :
  getOrderById id db = (inr (db_Order db !! id), db).
Proof. reflexivity. Qed.

Lemma run_Order_save id o db :
  Order_save id o db = (inr tt, write (SaveOrder id o) (with_Order <[id:=o]> db)).
Proof. reflexivity. Qed.

Lemma run_Order_insert f db :
  Order_insert f db =
  (inr (next_id (db_Order db)),
   write (SaveOrder (next_id (db_Order db)) (new_Order f (db_clock db)))
     (with_Order <[next_id (db_Order db) := new_Order f (db_clock db)]> db)).
Proof. reflexivity. Qed.

Lemma run_logOrderActivity accountId orderId action description ip browser db :
  logOrderActivity accountId orderId action description ip browser db =
  (inr tt,
   write
     (RecordActivity
        (new_activity (db_clock db) accountId orderId action description ip browser))
     (with_activities
        (λ l, l ++ [new_activity (db_clock db) accountId orderId action
                      description ip browser]) db)).
Proof. reflexivity. Qed.

Lemma run_Order_findOne id accountId db :
  Order_findOne id accountId db =
  (inr (o ← db_Order db !! id;
        if bool_decide (AccountId o = accountId) then Some o else None), db).
Proof. reflexivity. Qed.

Create Rewrite HintDb run.
#[global] Hint Rewrite @run_ret @run_throw @run_gets @run_orThrow_Some
  @run_orThrow_None run_modify run_throwIf_true run_throwIf_false
  run_Account_findByPk run_Product_findByPk run_Product_save
  run_Inventory_findOne run_Inventory_save run_Order_findByPk
  run_getOrderById run_Order_save run_Order_insert run_logOrderActivity
  run_Order_findOne : run.

(** Executes the statements of the function in the goal up to the next
    one whose outcome depends on a hypothesis. *)
Ltac step :=
  repeat progress
    (repeat rewrite run_bind; autorewrite with run; cbv beta iota zeta).

(** ** The tables *)

Lemma max_key_ge (orders : gmap Z Order) (k : Z) :
  is_Some (orders !! k) → k ≤ max_key orders.
Proof.
  unfold max_key. revert k.
  apply (map_fold_weak_ind
           (λ r (m : gmap Z Order), ∀ k, is_Some (m !! k) → k ≤ r)).
  - intros k [o Ho]. by rewrite lookup_empty in Ho.
  - intros i x m r Hi IH k Hk.
    destruct (decide (i = k)) as [->|Hne]; [lia|].
    rewrite lookup_insert_ne in Hk by done. specialize (IH k Hk). lia.
Qed.

(** An inserted order never takes the key of a stored one. *)
Lemma next_id_fresh (orders : gmap Z Order) : orders !! next_id orders = None.
Proof.
  destruct (orders !! next_id orders) eqn:E; [|done].
  assert (next_id orders ≤ max_key orders) by (apply max_key_ge; eauto).
  unfold next_id in *. lia.
Qed.

(** After [inventory.save()], the lookup by product finds the saved row. *)
Lemma find_replace_inventory pid (i i' : Inventory) (l : list Inventory) :
  List.find (has_productId pid) l = Some i →
  inv_id i' = inv_id i → inv_productId i' = inv_productId i →
  List.find (has_productId pid) (replace_inventory i' <$> l) = Some i'.
Proof.
  intros Hfind Hid Hpid.
  assert (Hi : has_productId pid i = true) by (by apply find_some in Hfind as [_ ?]).
  assert (Hi' : has_productId pid i' = true).
  { unfold has_productId in *. by rewrite Hpid. }
  induction l as [|r l IH]; [done|]. cbn in *.
  destruct (decide (inv_id r = inv_id i')) as [Hr|Hr].
  - replace (replace_inventory i' r) with i'
      by (unfold replace_inventory; by rewrite bool_decide_eq_true_2).
    by rewrite Hi'.
  - replace (replace_inventory i' r) with r
      by (unfold replace_inventory; by rewrite bool_decide_eq_false_2).
    destruct (has_productId pid r) eqn:Er.
    + simplify_eq.
    + by apply IH.
Qed.

(** ** createOrder *)

Lemma orDefault_nonzero (k d : Z) : k ≠ 0 → orDefault (Some k) d = k.
Proof. by destruct k. Qed.

(** The whole run of a call that passes the five validations, for the
    effective quantity [orDefault (p_quantity params) 1]. *)
Lemma createOrder_run db params account product inventory :
  db_Account db !! p_AccountId params = Some account →
  db_Product db !! p_productId params = Some product →
  productStatus product = "active" →
  List.find (has_productId (p_productId params)) (db_Inventory db)
    = Some inventory →
  orDefault (p_quantity params) 1 ≤ inv_quantity inventory →
  let k := orDefault (p_quantity params) 1 in
  let id := next_id (db_Order db) in
  let order :=
    {| AccountId := p_AccountId params; productId := p_productId params;
       quantity := k; totalAmount := price product * k;
       orderStatus := pending; shippingAddress := p_shippingAddress params;
       createdAt := db_clock db |} in
  let created :=
    new_activity (db_clock db) (p_AccountId params) id "created"
      ("Created order for " +:+ pretty k +:+ " units of product "
         +:+ name product)
      (p_ipAddress params) (p_browserInfo params) in
  let inventory' :=
    {| inv_id := inv_id inventory; inv_productId := inv_productId inventory;
       inv_quantity := inv_quantity inventory - k |} in
  createOrder params db =
  (inr (Some
     {| det_id := id; det_order := order;
        det_Account :=
          Some {| ref_id := p_AccountId params; ref_email := email account |};
        det_Product :=
          Some {| pref_id := p_productId params; pref_name := name product;
                  pref_price := price product |} |}),
   {| db_Account := db_Account db; db_Product := db_Product db;
      db_Inventory := replace_inventory inventory' <$> db_Inventory db;
      db_Order := <[id := order]> (db_Order db);
      db_activities := db_activities db ++ [created];
      db_journal :=
        db_journal db
          ++ [SaveOrder id order; RecordActivity created; SaveInventory inventory'];
      db_clock := db_clock db |}).
Proof.
  intros Ha Hp Hs Hi Hq k id order created inventory'.
  unfold createOrder. step. rewrite Ha. step. rewrite Hp. step.
  rewrite Hs, bool_decide_eq_false_2 by naive_solver. step.
  rewrite Hi. step.
  rewrite bool_decide_eq_false_2 by lia. step.
  unfold Order_findByPk_include, include_Account, include_Product.
  step. unfold write, with_Inventory, with_activities, with_Order. cbn.
  fold k id. rewrite lookup_insert_eq. cbn. rewrite Ha, Hp. cbn.
  by rewrite <- !app_assoc.
Qed.

Section createOrder_rejections.
Variables (db : Db) (params : CreateParams).

Lemma createOrder_no_account :
  db_Account db !! p_AccountId params = None →
  createOrder params db = (inl AccountNotFound, db).
Proof. intros Ha. unfold createOrder. step. rewrite Ha. by step. Qed.

Variable account : Account.
Hypothesis Haccount : db_Account db !! p_AccountId params = Some account.

Lemma createOrder_no_product :
  db_Product db !! p_productId params = None →
  createOrder params db = (inl ProductNotFound, db).
Proof.
  intros Hp. unfold createOrder. step. rewrite Haccount. step.
  rewrite Hp. by step.
Qed.

Variable product : Product.
Hypothesis Hproduct : db_Product db !! p_productId params = Some product.

Lemma createOrder_inactive_product :
  productStatus product ≠ "active" →
  createOrder params db = (inl ProductUnavailable, db).
Proof.
  intros Hs. unfold createOrder. step. rewrite Haccount. step.
  rewrite Hproduct. step. rewrite bool_decide_eq_true_2 by done. by step.
Qed.

Hypothesis Hactive : productStatus product = "active".

Lemma createOrder_no_inventory :
  List.find (has_productId (p_productId params)) (db_Inventory db) = None →
  createOrder params db = (inl InventoryMissing, db).
Proof.
  intros Hi. unfold createOrder. step. rewrite Haccount. step.
  rewrite Hproduct. step.
  rewrite Hactive, bool_decide_eq_false_2 by naive_solver. step.
  rewrite Hi. by step.
Qed.

Variable inventory : Inventory.
Hypothesis Hinventory :
  List.find (has_productId (p_productId params)) (db_Inventory db)
    = Some inventory.

Lemma createOrder_short_stock :
  orDefault (p_quantity params) 1 > inv_quantity inventory →
  createOrder params db =
    (inl (InsufficientStock (inv_quantity inventory)), db).
Proof.
  intros Hq. unfold createOrder. step. rewrite Haccount. step.
  rewrite Hproduct. step.
  rewrite Hactive, bool_decide_eq_false_2 by naive_solver. step.
  rewrite Hinventory. step. rewrite bool_decide_eq_true_2 by done. by step.
Qed.
End createOrder_rejections.

(** A call either throws before it writes anything, or stores one order
    under a fresh key and touches no other order. *)
Lemma createOrder_cases db params :
  (∃ e, createOrder params db = (inl e, db)) ∨
  (∃ r db' order,
     createOrder params db = (inr r, db') ∧
     db_Order db' = <[next_id (db_Order db) := order]> (db_Order db)).
Proof.
  destruct (db_Account db !! p_AccountId params) as [account|] eqn:Ha;
    [|left; eauto using createOrder_no_account].
  destruct (db_Product db !! p_productId params) as [product|] eqn:Hp;
    [|left; eauto using createOrder_no_product].
  destruct (decide (productStatus product = "active")) as [Hs|Hs];
    [|left; eauto using createOrder_inactive_product].
  destruct (List.find (has_productId (p_productId params)) (db_Inventory db))
    as [inventory|] eqn:Hi; [|left; eauto using createOrder_no_inventory].
  destruct (decide (orDefault (p_quantity params) 1 > inv_quantity inventory))
    as [Hq|Hq]; [left; eauto using createOrder_short_stock|].
  right. do 3 eexists. split.
  - apply (createOrder_run db params account product inventory); [done..|lia].
  - reflexivity.
Qed.

(** A call that passes the validations of [createOrder] is one to which
    [createOrder_run] applies. *)
Lemma createOrder_inv db params :
  (∃ e, createOrder params db = (inl e, db)) ∨
  (∃ account product inventory,
     db_Account db !! p_AccountId params = Some account ∧
     db_Product db !! p_productId params = Some product ∧
     productStatus product = "active" ∧
     List.find (has_productId (p_productId params)) (db_Inventory db)
       = Some inventory ∧
     orDefault (p_quantity params) 1 ≤ inv_quantity inventory).
Proof.
  destruct (db_Account db !! p_AccountId params) as [account|] eqn:Ha;
    [|left; eauto using createOrder_no_account].
  destruct (db_Product db !! p_productId params) as [product|] eqn:Hp;
    [|left; eauto using createOrder_no_product].
  destruct (decide (productStatus product = "active")) as [Hs|Hs];
    [|left; eauto using createOrder_inactive_product].
  destruct (List.find (has_productId (p_productId params)) (db_Inventory db))
    as [inventory|] eqn:Hi; [|left; eauto using createOrder_no_inventory].
  destruct (decide (orDefault (p_quantity params) 1 > inv_quantity inventory))
    as [Hq|Hq]; [left; eauto using createOrder_short_stock|].
  right. exists account, product, inventory. repeat split; try done; lia.
Qed.

(** *** createOrder on a params object with further columns *)

Lemma run_Order_insert_spread x f db :
  Order_insert_spread x f db =
  let id := default (next_id (db_Order db)) (x_id x) in
  if bool_decide (is_Some (db_Order db !! id))
  then (inl UniqueConstraintError, db)
  else (inr id,
        write (SaveOrder id (new_Order_spread x f (db_clock db)))
          (with_Order <[id := new_Order_spread x f (db_clock db)]> db)).
Proof.
  unfold Order_insert_spread. step. cbv zeta.
  case_bool_decide; by step.
Qed.

(** The key of the insert is free when [params] carries no [id], or one
    under which no order is stored. *)
Lemma spread_id_free (x : SpreadColumns) (orders : gmap Z Order) :
  (∀ i, x_id x = Some i → orders !! i = None) →
  orders !! default (next_id orders) (x_id x) = None.
Proof.
  intros Hfree. destruct (x_id x) as [i|]; cbn; [by apply Hfree|].
  apply next_id_fresh.
Qed.

(** The whole run of a call that passes the five validations and whose
    insert is not refused. *)
Lemma createOrder_spread_run db extra params account product inventory :
  db_Account db !! p_AccountId params = Some account →
  db_Product db !! p_productId params = Some product →
  productStatus product = "active" →
  List.find (has_productId (p_productId params)) (db_Inventory db)
    = Some inventory →
  orDefault (p_quantity params) 1 ≤ inv_quantity inventory →
  (∀ i, x_id extra = Some i → db_Order db !! i = None) →
  let k := orDefault (p_quantity params) 1 in
  let id := default (next_id (db_Order db)) (x_id extra) in
  let order :=
    {| AccountId := p_AccountId params; productId := p_productId params;
       quantity := k; totalAmount := price product * k;
       orderStatus := default pending (x_orderStatus extra);
       shippingAddress := p_shippingAddress params;
       createdAt := default (db_clock db) (x_createdAt extra) |} in
  let created :=
    new_activity (db_clock db) (p_AccountId params) id "created"
      ("Created order for " +:+ pretty k +:+ " units of product "
         +:+ name product)
      (p_ipAddress params) (p_browserInfo params) in
  let inventory' :=
    {| inv_id := inv_id inventory; inv_productId := inv_productId inventory;
       inv_quantity := inv_quantity inventory - k |} in
  createOrder_spread extra params db =
  (inr (Some
     {| det_id := id; det_order := order;
        det_Account :=
          Some {| ref_id := p_AccountId params; ref_email := email account |};
        det_Product :=
          Some {| pref_id := p_productId params; pref_name := name product;
                  pref_price := price product |} |}),
   {| db_Account := db_Account db; db_Product := db_Product db;
      db_Inventory := replace_inventory inventory' <$> db_Inventory db;
      db_Order := <[id := order]> (db_Order db);
      db_activities := db_activities db ++ [created];
      db_journal :=
        db_journal db
          ++ [SaveOrder id order; RecordActivity created; SaveInventory inventory'];
      db_clock := db_clock db |}).
Proof.
  intros Ha Hp Hs Hi Hq Hfree k id order created inventory'.
  apply spread_id_free in Hfree. fold id in Hfree.
  unfold createOrder_spread. step. rewrite Ha. step. rewrite Hp. step.
  rewrite Hs, bool_decide_eq_false_2 by naive_solver. step.
  rewrite Hi. step.
  rewrite bool_decide_eq_false_2 by lia. step.
  rewrite run_Order_insert_spread. cbv zeta. fold id.
  rewrite bool_decide_eq_false_2 by (rewrite Hfree; by intros [? ?]).
  step.
  unfold Order_findByPk_include, include_Account, include_Product.
  step. unfold write, with_Inventory, with_activities, with_Order. cbn.
  fold k. rewrite lookup_insert_eq. cbn. rewrite Ha, Hp. cbn.
  by rewrite <- !app_assoc.
Qed.

(** When [params] carries an [id] under which an order is stored, the
    call is refused by the insert and nothing is written. *)
Lemma createOrder_spread_taken db extra params account product inventory i :
  db_Account db !! p_AccountId params = Some account →
  db_Product db !! p_productId params = Some product →
  productStatus product = "active" →
  List.find (has_productId (p_productId params)) (db_Inventory db)
    = Some inventory →
  orDefault (p_quantity params) 1 ≤ inv_quantity inventory →
  x_id extra = Some i →
  is_Some (db_Order db !! i) →
  createOrder_spread extra params db = (inl UniqueConstraintError, db).
Proof.
  intros Ha Hp Hs Hi Hq Hid Htaken.
  unfold createOrder_spread. step. rewrite Ha. step. rewrite Hp. step.
  rewrite Hs, bool_decide_eq_false_2 by naive_solver. step.
  rewrite Hi. step.
  rewrite bool_decide_eq_false_2 by lia. step.
  rewrite run_Order_insert_spread. cbv zeta. rewrite Hid. cbn.
  rewrite bool_decide_eq_true_2 by done. by step.
Qed.

(** On a [params] object that carries the keys of the contract only, the
    function is [createOrder]. *)
Lemma createOrder_spread_no_spread params db :
  createOrder_spread no_spread params db = createOrder params db.
Proof.
  destruct (createOrder_inv db params)
    as [[e He]|(account & product & inventory & Ha & Hp & Hs & Hi & Hq)].
  - rewrite He. revert He. unfold createOrder, createOrder_spread. step.
    destruct (db_Account db !! p_AccountId params); step; [|done].
    destruct (db_Product db !! p_productId params) as [product|]; step; [|done].
    case_bool_decide; step; [done|].
    destruct (List.find (has_productId (p_productId params)) (db_Inventory db))
      as [inventory|]; step; [|done].
    case_bool_decide; step; [done|].
    unfold Order_findByPk_include. step. discriminate.
  - rewrite (createOrder_run db params account product inventory),
      (createOrder_spread_run db no_spread params account product inventory);
      done.
Qed.

(** C1, as stated, fails on a [params] object that carries an
    [orderStatus]: the spread of line 73 hands it to the new order, which
    is then stored with that status, not [pending]. *)
Lemma createOrder_spread_stores_given_status :
  let extra :=
    {| x_id := None; x_orderStatus := Some delivered; x_createdAt := None |} in
  1 ≤ 3 ≤ inv_quantity lamp_stock ∧
  ∃ detail db',
    createOrder_spread extra (buy (Some 3)) shop = (inr (Some detail), db') ∧
    db_Order db' !! det_id detail = Some (det_order detail) ∧
    orderStatus (det_order detail) = delivered ∧
    orderStatus (det_order detail) ≠ pending.
Proof.
  intros extra. split; [cbn; lia|].
  do 2 eexists. split.
  { apply (createOrder_spread_run shop extra (buy (Some 3)) alice lamp lamp_stock);
      try reflexivity; [cbn; lia|discriminate]. }
  cbn. split; [apply lookup_insert_eq|]. split; [reflexivity|discriminate].
Qed.

(** C1, amended: for an existing account, an active product and an
    inventory record at quantity [q], [createOrder] with a requested
    quantity [k], [1 <= k <= q], on a [params] object that carries no
    [orderStatus] and no [id] under which an order is stored, returns the
    new order and has, in this order, computed [totalAmount = price * k],
    stored exactly one new order (under a key no order had) with status
    [pending], recorded exactly one [created] activity, and saved the
    inventory record with quantity [q - k].  The stock and the product
    [price * k] are safe integers, so that the product and the difference
    the source computes are the integers'. *)
Theorem createOrder_spread_succeeds
    db extra params account product inventory k :
  db_Account db !! p_AccountId params = Some account →
  db_Product db !! p_productId params = Some product →
  productStatus product = "active" →
  List.find (has_productId (p_productId params)) (db_Inventory db)
    = Some inventory →
  p_quantity params = Some k →
  1 ≤ k ≤ inv_quantity inventory →
  x_orderStatus extra = None →
  (∀ i, x_id extra = Some i → db_Order db !! i = None) →
  safe_integer (inv_quantity inventory) →
  safe_integer (price product * k) →
  let id := default (next_id (db_Order db)) (x_id extra) in
  let order :=
    {| AccountId := p_AccountId params; productId := p_productId params;
       quantity := k; totalAmount := price product * k;
       orderStatus := pending; shippingAddress := p_shippingAddress params;
       createdAt := default (db_clock db) (x_createdAt extra) |} in
  let created :=
    new_activity (db_clock db) (p_AccountId params) id "created"
      ("Created order for " +:+ pretty k +:+ " units of product "
         +:+ name product)
      (p_ipAddress params) (p_browserInfo params) in
  let inventory' :=
    {| inv_id := inv_id inventory; inv_productId := inv_productId inventory;
       inv_quantity := inv_quantity inventory - k |} in
  ∃ detail db',
    createOrder_spread extra params db = (inr (Some detail), db') ∧
    det_id detail = id ∧ det_order detail = order ∧
    db_Order db !! id = None ∧
    db_Order db' = <[id := order]> (db_Order db) ∧
    db_activities db' = db_activities db ++ [created] ∧
    db_Inventory db' = replace_inventory inventory' <$> db_Inventory db ∧
    List.find (has_productId (p_productId params)) (db_Inventory db')
      = Some inventory' ∧
    db_journal db' =
      db_journal db
        ++ [SaveOrder id order; RecordActivity created; SaveInventory inventory'] ∧
    db_Account db' = db_Account db ∧ db_Product db' = db_Product db.
Proof.
  intros Ha Hp Hs Hi Hk Hq Hstatus Hfree _ _ id order created inventory'.
  assert (Hk' : orDefault (p_quantity params) 1 = k).
  { rewrite Hk. apply orDefault_nonzero. lia. }
  pose proof (createOrder_spread_run db extra params account product inventory
                Ha Hp Hs Hi) as Hrun.
  rewrite Hk', Hstatus in Hrun. specialize (Hrun ltac:(lia) Hfree).
  cbv zeta in Hrun. cbn [default] in Hrun.
  do 2 eexists. split; [exact Hrun|]. cbn.
  repeat split; try done.
  - by apply spread_id_free.
  - by apply (find_replace_inventory _ inventory).
Qed.

Lemma createOrder_spread_succeeds_witness :
  let extra := {| x_id := Some 10; x_orderStatus := None; x_createdAt := Some 500 |} in
  1 ≤ 3 ≤ inv_quantity lamp_stock ∧
  ∃ detail db',
    createOrder_spread extra (buy (Some 3)) shop = (inr (Some detail), db') ∧
    det_id detail = 10 ∧
    det_order detail
      = {| AccountId := 1; productId := 7; quantity := 3; totalAmount := 30;
           orderStatus := pending; shippingAddress := "1 Main Street";
           createdAt := 500 |} ∧
    List.find (has_productId 7) (db_Inventory db')
      = Some {| inv_id := 1; inv_productId := 7; inv_quantity := 2 |}.
Proof.
  intros extra.
  assert (Hq : 1 ≤ 3 ≤ inv_quantity lamp_stock) by (cbn; lia).
  assert (Hfree : ∀ i, x_id extra = Some i → db_Order shop !! i = None).
  { intros i Hi. injection Hi as <-. reflexivity. }
  assert (Hstock : safe_integer (inv_quantity lamp_stock)) by (split; reflexivity).
  assert (Htotal : safe_integer (price lamp * 3)) by (split; reflexivity).
  split; [exact Hq|].
  destruct (createOrder_spread_succeeds shop extra (buy (Some 3)) alice lamp
              lamp_stock 3 eq_refl eq_refl eq_refl eq_refl eq_refl Hq eq_refl
              Hfree Hstock Htotal)
    as (detail & db' & Hrun & Hid & Horder & _ & _ & _ & _ & Hfind & _).
  exists detail, db'. split; [exact Hrun|]. split; [exact Hid|].
  split; [exact Horder|exact Hfind].
Defined.

(** C2: for an inventory record at quantity [q], [createOrder] with a
    requested quantity [k > q] throws [InsufficientStock] carrying [q] and
    leaves the whole database as it was: no order, no activity, no
    decrement, no write at all. *)
Theorem createOrder_insufficient_stock db params account product inventory k :
  db_Account db !! p_AccountId params = Some account →
  db_Product db !! p_productId params = Some product →
  productStatus product = "active" →
  List.find (has_productId (p_productId params)) (db_Inventory db)
    = Some inventory →
  p_quantity params = Some k →
  k > inv_quantity inventory →
  createOrder params db = (inl (InsufficientStock (inv_quantity inventory)), db).
Proof.
  intros Ha Hp Hs Hi Hk Hq.
  apply (createOrder_short_stock db params account Ha product Hp Hs inventory Hi).
  rewrite Hk. destruct k; cbn; lia.
Qed.

Lemma createOrder_insufficient_stock_witness :
  6 > inv_quantity lamp_stock ∧
  createOrder (buy (Some 6)) shop = (inl (InsufficientStock 5), shop) ∧
  message (InsufficientStock 5) = "Insufficient stock. Only 5 items available.".
Proof.
  assert (Hq : 6 > inv_quantity lamp_stock) by (cbn; lia).
  split; [exact Hq|]. split; [|reflexivity].
  exact (createOrder_insufficient_stock shop (buy (Some 6)) alice lamp lamp_stock 6
           eq_refl eq_refl eq_refl eq_refl eq_refl Hq).
Defined.

(** C9: [createOrder] validates in a fixed order and the first violation
    decides the outcome: a missing account gives [AccountNotFound] whatever
    the product is; then a missing product gives [ProductNotFound]; then a
    product that is not active gives [ProductUnavailable] whatever the
    inventory is; then a missing inventory record gives [InventoryMissing]
    whatever the quantity is; only then is the effective quantity compared
    with the stock.  Every rejection leaves the database untouched. *)
Theorem createOrder_validation_order db params :
  match db_Account db !! p_AccountId params with
  | None => createOrder params db = (inl AccountNotFound, db)
  | Some _ =>
    match db_Product db !! p_productId params with
    | None => createOrder params db = (inl ProductNotFound, db)
    | Some product =>
      if decide (productStatus product = "active") then
        match List.find (has_productId (p_productId params)) (db_Inventory db) with
        | None => createOrder params db = (inl InventoryMissing, db)
        | Some inventory =>
          if decide (orDefault (p_quantity params) 1 > inv_quantity inventory)
          then createOrder params db
               = (inl (InsufficientStock (inv_quantity inventory)), db)
          else ∃ r db', createOrder params db = (inr r, db')
        end
      else createOrder params db = (inl ProductUnavailable, db)
    end
  end.
Proof.
  destruct (db_Account db !! p_AccountId params) as [account|] eqn:Ha;
    [|by apply createOrder_no_account].
  destruct (db_Product db !! p_productId params) as [product|] eqn:Hp;
    [|by apply (createOrder_no_product db params account)].
  destruct (decide (productStatus product = "active")) as [Hs|Hs];
    [|by apply (createOrder_inactive_product db params account Ha product)].
  destruct (List.find (has_productId (p_productId params)) (db_Inventory db))
    as [inventory|] eqn:Hi;
    [|by apply (createOrder_no_inventory db params account Ha product)].
  destruct (decide (orDefault (p_quantity params) 1 > inv_quantity inventory))
    as [Hq|Hq];
    [by apply (createOrder_short_stock db params account Ha product Hp Hs)|].
  do 2 eexists.
  apply (createOrder_run db params account product inventory); [done..|lia].
Qed.

(** The order of the validations on requests that violate several at
    once: an unknown account and an unknown product; a known account, an
    inactive product and no inventory; an active product without
    inventory and an excessive quantity. *)
Example createOrder_first_violation_wins :
  let nobody q := {| p_AccountId := 9; p_productId := 9; p_quantity := q;
                     p_shippingAddress := ""; p_ipAddress := "";
                     p_browserInfo := "" |} in
  let retired := {| name := "stool"; price := 4; productStatus := "retired";
                    isAvailable := true |} in
  let chair := {| name := "chair"; price := 20; productStatus := "active";
                  isAvailable := true |} in
  let shop' := with_Product (λ m, <[8 := retired]> (<[6 := chair]> m)) shop in
  let order pid q := {| p_AccountId := 1; p_productId := pid; p_quantity := q;
                        p_shippingAddress := ""; p_ipAddress := "";
                        p_browserInfo := "" |} in
  (createOrder (nobody (Some 100)) shop').1 = inl AccountNotFound ∧
  (createOrder (order 9 (Some 100)) shop').1 = inl ProductNotFound ∧
  (createOrder (order 8 (Some 100)) shop').1 = inl ProductUnavailable ∧
  (createOrder (order 6 (Some 100)) shop').1 = inl InventoryMissing ∧
  (createOrder (order 7 (Some 100)) shop').1 = inl (InsufficientStock 5).
Proof. vm_compute. repeat split. Qed.

(** C10: with an explicit quantity of [0] the effective quantity is the
    default [1]: the stored order has quantity [1] and [totalAmount] equal
    to the unit price, and the inventory goes down by [1]. *)
Theorem createOrder_quantity_zero db params account product inventory :
  db_Account db !! p_AccountId params = Some account →
  db_Product db !! p_productId params = Some product →
  productStatus product = "active" →
  List.find (has_productId (p_productId params)) (db_Inventory db)
    = Some inventory →
  p_quantity params = Some 0 →
  1 ≤ inv_quantity inventory →
  ∃ detail db',
    createOrder params db = (inr (Some detail), db') ∧
    db_Order db' !! det_id detail = Some (det_order detail) ∧
    db_Order db !! det_id detail = None ∧
    quantity (det_order detail) = 1 ∧
    totalAmount (det_order detail) = price product ∧
    List.find (has_productId (p_productId params)) (db_Inventory db')
      = Some {| inv_id := inv_id inventory;
                inv_productId := inv_productId inventory;
                inv_quantity := inv_quantity inventory - 1 |}.
Proof.
  intros Ha Hp Hs Hi Hk Hq.
  pose proof (createOrder_run db params account product inventory
                Ha Hp Hs Hi) as Hrun.
  rewrite Hk in Hrun. cbn [orDefault] in Hrun.
  specialize (Hrun Hq). cbv zeta in Hrun.
  do 2 eexists. split; [exact Hrun|]. cbn.
  split; [apply lookup_insert_eq|].
  split; [apply next_id_fresh|].
  split; [done|]. split; [lia|].
  by apply (find_replace_inventory _ inventory).
Qed.

Lemma createOrder_quantity_zero_witness :
  1 ≤ inv_quantity lamp_stock ∧
  ∃ detail db',
    createOrder (buy (Some 0)) shop = (inr (Some detail), db') ∧
    quantity (det_order detail) = 1 ∧
    totalAmount (det_order detail) = 10 ∧
    List.find (has_productId 7) (db_Inventory db')
      = Some {| inv_id := 1; inv_productId := 7; inv_quantity := 4 |}.
Proof.
  assert (Hq : 1 ≤ inv_quantity lamp_stock) by (cbn; lia).
  split; [exact Hq|].
  destruct (createOrder_quantity_zero shop (buy (Some 0)) alice lamp lamp_stock
              eq_refl eq_refl eq_refl eq_refl eq_refl Hq)
    as (detail & db' & Hrun & _ & _ & Hquantity & Htotal & Hfind).
  exists detail, db'. repeat split; assumption.
Defined.

(** ** The status transitions *)

Lemma alter_present (f : Product → Product) (products : gmap Z Product) id product :
  products !! id = Some product →
  alter f id products = <[id := f product]> products.
Proof.
  intros Hp. apply map_eq. intros j. rewrite lookup_alter, lookup_insert.
  case_decide; simplify_eq; [by rewrite Hp|done].
Qed.

Lemma alter_absent (f : Product → Product) (products : gmap Z Product) id :
  products !! id = None → alter f id products = products.
Proof.
  intros Hp. apply map_eq. intros j. rewrite lookup_alter.
  case_decide; simplify_eq; [by rewrite Hp|done].
Qed.

Section missing_order.
Variables (db : Db) (id : Z).
Hypothesis Hmissing : db_Order db !! id = None.

Lemma updateOrder_missing params actor ip browser :
  updateOrder id params actor ip browser db = (inl OrderNotFound, db).
Proof. unfold updateOrder. step. rewrite Hmissing. by step. Qed.

Lemma cancelOrder_missing actor ip browser :
  cancelOrder id actor ip browser db = (inl OrderNotFound, db).
Proof. unfold cancelOrder. step. rewrite Hmissing. by step. Qed.

Lemma processOrder_missing actor ip browser :
  processOrder id actor ip browser db = (inl OrderNotFound, db).
Proof. unfold processOrder. step. rewrite Hmissing. by step. Qed.

Lemma shipOrder_missing : shipOrder id db = (inl OrderNotFound, db).
Proof. unfold shipOrder. step. rewrite Hmissing. by step. Qed.

Lemma deliverOrder_missing : deliverOrder id db = (inl OrderNotFound, db).
Proof. unfold deliverOrder. step. rewrite Hmissing. by step. Qed.
End missing_order.

Section cancelled_order.
Variables (db : Db) (id : Z) (order : Order).
Hypothesis Horder : db_Order db !! id = Some order.
Hypothesis Hcancelled : orderStatus order = cancelled.

Lemma updateOrder_cancelled params actor ip browser :
  updateOrder id params actor ip browser db = (inl CannotUpdateCancelled, db).
Proof. unfold updateOrder. step. rewrite Horder. step. rewrite Hcancelled. by step. Qed.

Lemma cancelOrder_cancelled actor ip browser :
  cancelOrder id actor ip browser db = (inl OrderAlreadyCancelled, db).
Proof. unfold cancelOrder. step. rewrite Horder. step. rewrite Hcancelled. by step. Qed.

Lemma processOrder_cancelled actor ip browser :
  processOrder id actor ip browser db = (inl CannotProcessCancelled, db).
Proof. unfold processOrder. step. rewrite Horder. step. rewrite Hcancelled. by step. Qed.

Lemma shipOrder_cancelled : shipOrder id db = (inl CannotShipCancelled, db).
Proof. unfold shipOrder. step. rewrite Horder. step. rewrite Hcancelled. by step. Qed.

Lemma deliverOrder_cancelled :
  deliverOrder id db = (inl CannotDeliverCancelled, db).
Proof. unfold deliverOrder. step. rewrite Horder. step. rewrite Hcancelled. by step. Qed.
End cancelled_order.

Section live_order.
Variables (db : Db) (id : Z) (order : Order).
Hypothesis Horder : db_Order db !! id = Some order.
Hypothesis Hlive : orderStatus order ≠ cancelled.

Lemma updateOrder_run params actor ip browser :
  let order' := assign order params in
  let updated :=
    new_activity (db_clock db) actor id "updated"
      ("Updated order. Status changed from '" +:+ status_name (orderStatus order)
         +:+ "' to '" +:+ status_name (orderStatus order') +:+ "'")
      ip browser in
  updateOrder id params actor ip browser db =
  (inr order',
   {| db_Account := db_Account db; db_Product := db_Product db;
      db_Inventory := db_Inventory db;
      db_Order := <[id := order']> (db_Order db);
      db_activities := db_activities db ++ [updated];
      db_journal := db_journal db ++ [SaveOrder id order'; RecordActivity updated];
      db_clock := db_clock db |}).
Proof.
  intros order' updated. unfold updateOrder. step. rewrite Horder. step.
  rewrite bool_decide_eq_false_2 by done. step.
  unfold write, with_activities, with_Order. cbn. by rewrite <- !app_assoc.
Qed.

Lemma processOrder_run actor ip browser :
  let order' := set_orderStatus processing order in
  let processed :=
    new_activity (db_clock db) actor id "processed"
      ("Processed order. Status changed from '"
         +:+ status_name (orderStatus order) +:+ "' to 'processing'")
      ip browser in
  processOrder id actor ip browser db =
  (inr tt,
   {| db_Account := db_Account db; db_Product := db_Product db;
      db_Inventory := db_Inventory db;
      db_Order := <[id := order']> (db_Order db);
      db_activities := db_activities db ++ [processed];
      db_journal :=
        db_journal db ++ [SaveOrder id order'; RecordActivity processed];
      db_clock := db_clock db |}).
Proof.
  intros order' processed. unfold processOrder. step. rewrite Horder. step.
  rewrite bool_decide_eq_false_2 by done. step.
  unfold write, with_activities, with_Order. cbn. by rewrite <- !app_assoc.
Qed.

Lemma shipOrder_run :
  let order' := set_orderStatus shipped order in
  shipOrder id db =
  (inr tt,
   {| db_Account := db_Account db; db_Product := db_Product db;
      db_Inventory := db_Inventory db;
      db_Order := <[id := order']> (db_Order db);
      db_activities := db_activities db;
      db_journal := db_journal db ++ [SaveOrder id order'];
      db_clock := db_clock db |}).
Proof.
  intros order'. unfold shipOrder. step. rewrite Horder. step.
  rewrite bool_decide_eq_false_2 by done. by step.
Qed.

Lemma deliverOrder_run :
  let order' := set_orderStatus delivered order in
  deliverOrder id db =
  (inr tt,
   {| db_Account := db_Account db; db_Product := db_Product db;
      db_Inventory := db_Inventory db;
      db_Order := <[id := order']> (db_Order db);
      db_activities := db_activities db;
      db_journal := db_journal db ++ [SaveOrder id order'];
      db_clock := db_clock db |}).
Proof.
  intros order'. unfold deliverOrder. step. rewrite Horder. step.
  rewrite bool_decide_eq_false_2 by done. by step.
Qed.

Lemma cancelOrder_too_late actor ip browser :
  orderStatus order = shipped ∨ orderStatus order = delivered →
  cancelOrder id actor ip browser db = (inl OrderNotCancellable, db).
Proof.
  intros Hlate. unfold cancelOrder. step. rewrite Horder. step.
  rewrite bool_decide_eq_false_2 by done. step.
  rewrite bool_decide_eq_true_2 by (rewrite !elem_of_cons; tauto).
  by step.
Qed.

Lemma cancelOrder_run actor ip browser :
  orderStatus order = pending ∨ orderStatus order = processing →
  let order' := set_orderStatus cancelled order in
  let was_cancelled :=
    new_activity (db_clock db) actor id "cancelled"
      ("Cancelled order. Previous status: " +:+ status_name (orderStatus order))
      ip browser in
  cancelOrder id actor ip browser db =
  (inr order',
   {| db_Account := db_Account db;
      db_Product :=
        alter (set_isAvailable false) (productId order) (db_Product db);
      db_Inventory := db_Inventory db;
      db_Order := <[id := order']> (db_Order db);
      db_activities := db_activities db ++ [was_cancelled];
      db_journal :=
        db_journal db
          ++ [SaveOrder id order'; RecordActivity was_cancelled]
          ++ match db_Product db !! productId order with
             | Some product =>
                 [SaveProduct (productId order) (set_isAvailable false product)]
             | None => []
             end;
      db_clock := db_clock db |}).
Proof.
  intros Hearly order' was_cancelled. unfold cancelOrder. step.
  rewrite Horder. step.
  rewrite bool_decide_eq_false_2 by done. step.
  rewrite bool_decide_eq_false_2
    by (rewrite !elem_of_cons, elem_of_nil; intros [?|[?|[]]];
        destruct Hearly; congruence).
  step. unfold write at 1 2, with_activities, with_Order. cbn.
  destruct (db_Product db !! productId order) as [product|] eqn:Hp; step;
    unfold write, with_Product; cbn.
  - rewrite (alter_present _ _ _ _ Hp). by rewrite <- !app_assoc.
  - rewrite (alter_absent _ _ _ Hp). by rewrite <- !app_assoc.
Qed.
End live_order.

(** C3, as stated, fails on [processOrder]: order 2 of the shop is
    [shipped], and processing it does not fail; it returns and moves the
    order back to [processing]. *)
Lemma processOrder_shipped_does_not_fail :
  orderStatus <$> db_Order shop !! 2 = Some shipped ∧
  ¬ (∃ e db', processOrder 2 2 "127.0.0.1" "Firefox" shop = (inl e, db')) ∧
  (processOrder 2 2 "127.0.0.1" "Firefox" shop).1 = inr tt ∧
  orderStatus <$> db_Order (processOrder 2 2 "127.0.0.1" "Firefox" shop).2 !! 2
    = Some processing.
Proof.
  split; [reflexivity|]. split; [|split; reflexivity].
  intros (e & db' & Hfail). apply (f_equal fst) in Hfail.
  vm_compute in Hfail. discriminate.
Qed.

(** C3, amended: on an order whose status is [shipped], [cancelOrder]
    fails and leaves the database unchanged, [deliverOrder] succeeds and
    sets the status to [delivered], and [processOrder] succeeds as well and
    sets the status to [processing]. *)
Theorem shipped_order_transitions db id order actor ip browser :
  db_Order db !! id = Some order →
  orderStatus order = shipped →
  cancelOrder id actor ip browser db = (inl OrderNotCancellable, db) ∧
  (∃ db', deliverOrder id db = (inr tt, db') ∧
          db_Order db' = <[id := set_orderStatus delivered order]> (db_Order db) ∧
          orderStatus <$> db_Order db' !! id = Some delivered) ∧
  (∃ db', processOrder id actor ip browser db = (inr tt, db') ∧
          db_Order db' = <[id := set_orderStatus processing order]> (db_Order db) ∧
          orderStatus <$> db_Order db' !! id = Some processing).
Proof.
  intros Horder Hshipped.
  assert (Hlive : orderStatus order ≠ cancelled) by congruence.
  split; [apply (cancelOrder_too_late db id order); auto|].
  split; eexists.
  - split; [by apply (deliverOrder_run db id order)|]. cbn.
    split; [done|]. by rewrite lookup_insert_eq.
  - split; [by apply (processOrder_run db id order)|]. cbn.
    split; [done|]. by rewrite lookup_insert_eq.
Qed.

Lemma shipped_order_transitions_witness :
  cancelOrder 2 2 "127.0.0.1" "Firefox" shop = (inl OrderNotCancellable, shop) ∧
  (∃ db', deliverOrder 2 shop = (inr tt, db') ∧
          orderStatus <$> db_Order db' !! 2 = Some delivered) ∧
  (∃ db', processOrder 2 2 "127.0.0.1" "Firefox" shop = (inr tt, db') ∧
          orderStatus <$> db_Order db' !! 2 = Some processing).
Proof.
  destruct (shipped_order_transitions shop 2 (an_order 1 shipped 200) 2
              "127.0.0.1" "Firefox" eq_refl eq_refl)
    as (Hcancel & (db1 & Hdeliver & _ & Hdelivered)
          & (db2 & Hprocess & _ & Hprocessing)).
  split; [exact Hcancel|]. split.
  - exists db1. split; assumption.
  - exists db2. split; assumption.
Defined.

(** C4: on an existing order, [cancelOrder] succeeds exactly when the
    status is [pending] or [processing]; it then stores the order with
    status [cancelled], sets [isAvailable] of the order's product to
    [false] and records one [cancelled] activity; on a [shipped],
    [delivered] or [cancelled] order it throws and leaves the database,
    hence the order and the product, unchanged. *)
Theorem cancelOrder_spec db id order actor ip browser :
  db_Order db !! id = Some order →
  let order' := set_orderStatus cancelled order in
  let was_cancelled :=
    new_activity (db_clock db) actor id "cancelled"
      ("Cancelled order. Previous status: " +:+ status_name (orderStatus order))
      ip browser in
  ((∃ r db', cancelOrder id actor ip browser db = (inr r, db'))
     ↔ orderStatus order = pending ∨ orderStatus order = processing) ∧
  (orderStatus order = pending ∨ orderStatus order = processing →
   ∃ db', cancelOrder id actor ip browser db = (inr order', db') ∧
     db_Order db' = <[id := order']> (db_Order db) ∧
     orderStatus <$> db_Order db' !! id = Some cancelled ∧
     db_Product db'
       = alter (set_isAvailable false) (productId order) (db_Product db) ∧
     isAvailable <$> db_Product db' !! productId order
       = (λ _, false) <$> db_Product db !! productId order ∧
     db_activities db' = db_activities db ++ [was_cancelled] ∧
     act_action was_cancelled = "cancelled" ∧
     db_Inventory db' = db_Inventory db ∧ db_Account db' = db_Account db) ∧
  (orderStatus order = shipped ∨ orderStatus order = delivered →
   cancelOrder id actor ip browser db = (inl OrderNotCancellable, db)) ∧
  (orderStatus order = cancelled →
   cancelOrder id actor ip browser db = (inl OrderAlreadyCancelled, db)).
Proof.
  intros Horder order' was_cancelled.
  assert (Hsuccess :
    orderStatus order = pending ∨ orderStatus order = processing →
    ∃ db', cancelOrder id actor ip browser db = (inr order', db') ∧
           db' = (cancelOrder id actor ip browser db).2).
  { intros Hearly. eexists. split; [|reflexivity].
    rewrite (cancelOrder_run db id order Horder); [done| |done].
    destruct Hearly; congruence. }
  assert (Hlate :
    orderStatus order = shipped ∨ orderStatus order = delivered →
    cancelOrder id actor ip browser db = (inl OrderNotCancellable, db)).
  { intros Hlate. apply (cancelOrder_too_late db id order); [done| |done].
    destruct Hlate; congruence. }
  assert (Hagain :
    orderStatus order = cancelled →
    cancelOrder id actor ip browser db = (inl OrderAlreadyCancelled, db))
    by (intros Hagain; apply (cancelOrder_cancelled db id order Horder Hagain)).
  split; [|split; [|by split]].
  - split.
    + intros (r & db' & Hrun).
      destruct (orderStatus order) eqn:Hstatus; auto.
      * rewrite Hlate in Hrun by auto. discriminate.
      * rewrite Hlate in Hrun by auto. discriminate.
      * rewrite Hagain in Hrun by auto. discriminate.
    + intros Hearly. destruct (Hsuccess Hearly) as (db' & Hrun & _). eauto.
  - intros Hearly. destruct (Hsuccess Hearly) as (db' & Hrun & ->).
    eexists. split; [exact Hrun|].
    rewrite (cancelOrder_run db id order Horder);
      [|destruct Hearly; congruence|done].
    cbn. split; [done|]. split; [by rewrite lookup_insert_eq|].
    split; [done|]. split; [|done].
    rewrite lookup_alter_eq.
    by destruct (db_Product db !! productId order).
Qed.

Lemma cancelOrder_spec_witness :
  (∃ db', cancelOrder 1 2 "127.0.0.1" "Firefox" shop
            = (inr (an_order 1 cancelled 100), db') ∧
          orderStatus <$> db_Order db' !! 1 = Some cancelled ∧
          isAvailable <$> db_Product db' !! 7 = Some false) ∧
  cancelOrder 5 2 "127.0.0.1" "Firefox" shop = (inl OrderNotCancellable, shop) ∧
  cancelOrder 3 2 "127.0.0.1" "Firefox" shop = (inl OrderAlreadyCancelled, shop).
Proof.
  split; [|split].
  - destruct (cancelOrder_spec shop 1 (an_order 1 pending 100) 2
                "127.0.0.1" "Firefox" eq_refl)
      as (_ & Hsuccess & _).
    destruct (Hsuccess (or_introl eq_refl))
      as (db' & Hrun & _ & Hstatus & _ & Hproduct & _).
    exists db'. split; [exact Hrun|]. split; [exact Hstatus|exact Hproduct].
  - destruct (cancelOrder_spec shop 5 (an_order 1 delivered 150) 2
                "127.0.0.1" "Firefox" eq_refl)
      as (_ & _ & Hlate & _).
    exact (Hlate (or_intror eq_refl)).
  - destruct (cancelOrder_spec shop 3 (an_order 2 cancelled 300) 2
                "127.0.0.1" "Firefox" eq_refl)
      as (_ & _ & _ & Hagain).
    exact (Hagain eq_refl).
Defined.

(** ** getAllOrders *)

Global Instance createdAt_DESC_total : Total createdAt_DESC.
Proof. intros r1 r2. unfold createdAt_DESC. lia. Qed.

Global Instance createdAt_DESC_trans : Transitive createdAt_DESC.
Proof. intros r1 r2 r3. unfold createdAt_DESC. lia. Qed.

Lemma status_listed (s : OrderStatus) :
  s ∈ [pending; processing; shipped; delivered] ↔ s ≠ cancelled.
Proof.
  rewrite !elem_of_cons, elem_of_nil. destruct s; intuition congruence.
Qed.

Lemma whereCondition_User accountId order :
  whereCondition "User" accountId order = true
  ↔ AccountId order = accountId ∧ orderStatus order ≠ cancelled.
Proof.
  unfold whereCondition. rewrite bool_decide_eq_true_2 by done.
  rewrite andb_true_iff, negb_true_iff, bool_decide_eq_true, bool_decide_eq_false.
  done.
Qed.

Lemma whereCondition_other role accountId order :
  role ≠ "User" →
  whereCondition role accountId order = true
  ↔ orderStatus order ∈ [pending; processing; shipped; delivered].
Proof.
  intros Hrole. unfold whereCondition. rewrite bool_decide_eq_false_2 by done.
  by rewrite bool_decide_eq_true.
Qed.

(** The listing holds exactly the stored orders that satisfy the [where]
    condition. *)
Lemma Order_findAll_rows role cond db :
  ∃ rows, Order_findAll role cond db = (inr rows, db) ∧
    StronglySorted (λ r1 r2, row_createdAt r2 ≤ row_createdAt r1) rows ∧
    ∀ r, r ∈ rows ↔
         ∃ id order, db_Order db !! id = Some order ∧ cond order = true ∧
                     r = select_row role db (id, order).
Proof.
  eexists. split; [reflexivity|]. split.
  - apply (StronglySorted_fmap _ createdAt_DESC); [done|].
    apply StronglySorted_merge_sort; apply _.
  - intros r. rewrite list_elem_of_fmap. split.
    + intros ([id order] & -> & Hin).
      rewrite merge_sort_Permutation, list_elem_of_In, filter_In in Hin.
      destruct Hin as [Hin Hcond].
      apply list_elem_of_In, elem_of_map_to_list in Hin. eauto.
    + intros (id & order & Hin & Hcond & ->).
      exists (id, order). split; [done|].
      rewrite merge_sort_Permutation, list_elem_of_In, filter_In.
      split; [|done]. by apply list_elem_of_In, elem_of_map_to_list.
Qed.

(** C5: [getAllOrders('User', A)] returns exactly the stored orders that
    belong to [A] and are not [cancelled]; for any other role it returns
    the orders of all accounts whose status is one of [pending],
    [processing], [shipped], [delivered]; it never returns a [cancelled]
    order, and the rows are sorted by [createdAt], latest first. *)
Theorem getAllOrders_spec db role accountId :
  ∃ rows, getAllOrders role accountId db = (inr rows, db) ∧
    StronglySorted (λ r1 r2, row_createdAt r2 ≤ row_createdAt r1) rows ∧
    (∀ r, r ∈ rows → row_orderStatus r ≠ cancelled) ∧
    (role = "User" →
     (∀ r, r ∈ rows → row_AccountId r = accountId) ∧
     (∀ r, r ∈ rows ↔
           ∃ id order, db_Order db !! id = Some order ∧
             AccountId order = accountId ∧ orderStatus order ≠ cancelled ∧
             r = select_row role db (id, order))) ∧
    (role ≠ "User" →
     ∀ r, r ∈ rows ↔
          ∃ id order, db_Order db !! id = Some order ∧
            orderStatus order ∈ [pending; processing; shipped; delivered] ∧
            r = select_row role db (id, order)).
Proof.
  destruct (Order_findAll_rows role (whereCondition role accountId) db)
    as (rows & Hrun & Hsorted & Hrows).
  exists rows. split; [exact Hrun|]. split; [exact Hsorted|].
  split; [|split].
  - intros r (id & order & _ & Hcond & ->)%Hrows. cbn.
    destruct (decide (role = "User")) as [->|Hrole].
    + by apply whereCondition_User in Hcond as [_ ?].
    + apply whereCondition_other in Hcond; [|done]. by apply status_listed.
  - intros ->. split.
    + intros r (id & order & _ & Hcond & ->)%Hrows. cbn.
      by apply whereCondition_User in Hcond as [? _].
    + intros r. rewrite Hrows. split.
      * intros (id & order & Hin & Hcond%whereCondition_User & ->).
        exists id, order. tauto.
      * intros (id & order & Hin & Howner & Hlive & ->).
        exists id, order. rewrite whereCondition_User. tauto.
  - intros Hrole r. rewrite Hrows. split.
    + intros (id & order & Hin & Hcond & ->).
      apply whereCondition_other in Hcond; [|done]. eauto.
    + intros (id & order & Hin & Hstatus & ->).
      exists id, order. by rewrite whereCondition_other.
Qed.

Lemma getAllOrders_spec_witness :
  (∃ rows, getAllOrders "User" 1 shop = (inr rows, shop) ∧
     row_id <$> rows = [2; 5; 1] ∧
     ∀ r, r ∈ rows → row_AccountId r = 1 ∧ row_orderStatus r ≠ cancelled) ∧
  (∃ rows, getAllOrders "Admin" 1 shop = (inr rows, shop) ∧
     row_id <$> rows = [4; 2; 5; 1] ∧
     ∀ r, r ∈ rows → row_orderStatus r ≠ cancelled).
Proof.
  split.
  - destruct (getAllOrders_spec shop "User" 1)
      as (rows & Hrun & _ & Hlive & Huser & _).
    exists rows. split; [exact Hrun|]. split.
    + injection Hrun as <-. reflexivity.
    + intros r Hr. split; [exact (proj1 (Huser eq_refl) r Hr)|exact (Hlive r Hr)].
  - destruct (getAllOrders_spec shop "Admin" 1)
      as (rows & Hrun & _ & Hlive & _).
    exists rows. split; [exact Hrun|]. split.
    + injection Hrun as <-. reflexivity.
    + exact Hlive.
Defined.

(** ** trackOrderStatus *)

(** C6: for a stored order, [trackOrderStatus(id, accountId)] returns the
    order's status when [accountId] is the order's [AccountId], and throws
    the unauthorized-access error for every other [accountId]; the caller's
    role plays no part. *)
Theorem trackOrderStatus_spec db id order accountId :
  db_Order db !! id = Some order →
  (accountId = AccountId order →
   trackOrderStatus id accountId db = (inr (orderStatus order), db)) ∧
  (accountId ≠ AccountId order →
   trackOrderStatus id accountId db = (inl UnauthorizedAccess, db)).
Proof.
  intros Horder. split; intros Howner; unfold trackOrderStatus; step;
    rewrite Horder; cbn.
  - rewrite bool_decide_eq_true_2 by done. by step.
  - rewrite bool_decide_eq_false_2 by done. by step.
Qed.

(** Order 1 belongs to account 1, a [User]; account 2 is an [Admin]. *)
Lemma trackOrderStatus_spec_witness :
  trackOrderStatus 1 1 shop = (inr pending, shop) ∧
  role <$> db_Account shop !! 2 = Some "Admin" ∧
  trackOrderStatus 1 2 shop = (inl UnauthorizedAccess, shop) ∧
  message UnauthorizedAccess = "Order not found or unauthorized access".
Proof.
  destruct (trackOrderStatus_spec shop 1 (an_order 1 pending 100) 1 eq_refl)
    as [Howner _].
  destruct (trackOrderStatus_spec shop 1 (an_order 1 pending 100) 2 eq_refl)
    as [_ Hother].
  split; [exact (Howner eq_refl)|]. split; [reflexivity|].
  split; [|reflexivity]. apply Hother. discriminate.
Defined.

(** ** totalAmount *)

(** C7, as stated, fails on [updateOrder]: a call whose [params] carry a
    [totalAmount] overwrites the one fixed at creation. *)
Lemma updateOrder_changes_totalAmount :
  totalAmount <$> db_Order shop !! 1 = Some 30 ∧
  totalAmount <$>
    db_Order (calls [UpdateOrder 1 (reprice 0) 2 "127.0.0.1" "Firefox"] shop) !! 1
    = Some 0.
Proof. split; reflexivity. Qed.

(** [updateOrder] on a live order stores whatever [totalAmount] its
    [params] carry. *)
Lemma updateOrder_overwrites_totalAmount db id order params actor ip browser t :
  db_Order db !! id = Some order →
  orderStatus order ≠ cancelled →
  u_totalAmount params = Some t →
  totalAmount <$> db_Order (updateOrder id params actor ip browser db).2 !! id
    = Some t.
Proof.
  intros Horder Hlive Ht.
  rewrite (updateOrder_run db id order Horder Hlive). cbn.
  rewrite lookup_insert_eq. cbn. by rewrite Ht.
Qed.

(** Storing, under the key of an order, an order with the same
    [totalAmount] keeps every stored [totalAmount]. *)
Lemma insert_same_totalAmount (orders : gmap Z Order) id0 order0 order0' id order :
  orders !! id0 = Some order0 →
  totalAmount order0' = totalAmount order0 →
  orders !! id = Some order →
  ∃ order', <[id0 := order0']> orders !! id = Some order' ∧
            totalAmount order' = totalAmount order.
Proof.
  intros H0 Hsame Hid. destruct (decide (id0 = id)) as [->|Hne].
  - rewrite lookup_insert_eq. eexists. split; [done|]. congruence.
  - rewrite lookup_insert_ne by done. eauto.
Qed.

Lemma call_keeps_totalAmount c db id order :
  keeps_totalAmount c →
  db_Order db !! id = Some order →
  ∃ order', db_Order (call c db) !! id = Some order' ∧
            totalAmount order' = totalAmount order.
Proof.
  intros Hkeeps Horder.
  destruct c as [params|id0 params actor ip browser|id0 actor ip browser
                |id0 actor ip browser|id0|id0]; cbn [call];
    try (destruct (db_Order db !! id0) as [order0|] eqn:Horder0;
         [destruct (decide (orderStatus order0 = cancelled)) as [Hdead|Hlive]|]).
  - destruct (createOrder_cases db params)
      as [[e ->]|(r & db' & new & -> & Horders)]; cbn; [eauto|].
    rewrite Horders, lookup_insert_ne; [eauto|].
    intros Heq. rewrite <- Heq, next_id_fresh in Horder. discriminate.
  - rewrite (updateOrder_cancelled db id0 order0) by done. eauto.
  - rewrite (updateOrder_run db id0 order0) by done. cbn.
    apply (insert_same_totalAmount _ _ order0); [done| |done].
    cbn in Hkeeps. cbn. by rewrite Hkeeps.
  - rewrite updateOrder_missing by done. eauto.
  - rewrite (cancelOrder_cancelled db id0 order0) by done. eauto.
  - destruct (orderStatus order0) eqn:Hstatus; try done.
    + rewrite (cancelOrder_run db id0 order0) by (rewrite ?Hstatus; auto). cbn.
      by apply (insert_same_totalAmount _ _ order0).
    + rewrite (cancelOrder_run db id0 order0) by (rewrite ?Hstatus; auto). cbn.
      by apply (insert_same_totalAmount _ _ order0).
    + rewrite (cancelOrder_too_late db id0 order0) by (rewrite ?Hstatus; auto).
      eauto.
    + rewrite (cancelOrder_too_late db id0 order0) by (rewrite ?Hstatus; auto).
      eauto.
  - rewrite cancelOrder_missing by done. eauto.
  - rewrite (processOrder_cancelled db id0 order0) by done. eauto.
  - rewrite (processOrder_run db id0 order0) by done. cbn.
    by apply (insert_same_totalAmount _ _ order0).
  - rewrite processOrder_missing by done. eauto.
  - rewrite (shipOrder_cancelled db id0 order0) by done. eauto.
  - rewrite (shipOrder_run db id0 order0) by done. cbn.
    by apply (insert_same_totalAmount _ _ order0).
  - rewrite shipOrder_missing by done. eauto.
  - rewrite (deliverOrder_cancelled db id0 order0) by done. eauto.
  - rewrite (deliverOrder_run db id0 order0) by done. cbn.
    by apply (insert_same_totalAmount _ _ order0).
  - rewrite deliverOrder_missing by done. eauto.
Qed.

(** C7, amended: the [totalAmount] of a stored order is the same after any
    sequence of [createOrder], [cancelOrder], [processOrder], [shipOrder]
    and [deliverOrder] calls and of [updateOrder] calls whose [params]
    carry no [totalAmount], whether the calls return or throw. *)
Theorem totalAmount_kept cs db id order :
  Forall keeps_totalAmount cs →
  db_Order db !! id = Some order →
  ∃ order', db_Order (calls cs db) !! id = Some order' ∧
            totalAmount order' = totalAmount order.
Proof.
  intros Hkeeps. revert db order.
  induction Hkeeps as [|c cs Hc _ IH]; intros db order Horder; [by eauto|].
  destruct (call_keeps_totalAmount c db id order Hc Horder)
    as (order1 & Horder1 & Hsame1).
  destruct (IH (call c db) order1 Horder1) as (order' & Horder' & Hsame).
  exists order'. split; [exact Horder'|]. congruence.
Qed.

Lemma totalAmount_kept_witness :
  ∃ order',
    db_Order
      (calls [ProcessOrder 1 2 "127.0.0.1" "Firefox";
              UpdateOrder 1 (readdress "2 Side Street") 2 "127.0.0.1" "Firefox";
              ShipOrder 1; CreateOrder (buy (Some 2)); DeliverOrder 1;
              CancelOrder 1 2 "127.0.0.1" "Firefox"] shop) !! 1 = Some order' ∧
    totalAmount order' = 30.
Proof.
  apply (totalAmount_kept _ shop 1 (an_order 1 pending 100)).
  - repeat constructor.
  - reflexivity.
Defined.

(** ** getOrderActivities *)

Section getOrderActivities_facts.
Context {Filters : Type}.
Variable logger : Z → Z → Filters → M (list OrderActivity).
Variables (db : Db) (orderId actor : Z) (filters : Filters).

Lemma getOrderActivities_missing :
  db_Order db !! orderId = None →
  getOrderActivities logger orderId actor filters db = (inl OrderNotFound, db).
Proof.
  intros Hmissing. unfold getOrderActivities. step.
  rewrite Hmissing. by step.
Qed.

(** The module binds [logOrderActivity] only, so for a stored order the
    call stops at the identifier [orderActivityLogger] and the logger is
    never asked. *)
Lemma getOrderActivities_unbound_logger order :
  db_Order db !! orderId = Some order →
  getOrderActivities logger orderId actor filters db
    = (inl (ReferenceError "orderActivityLogger"), db).
Proof.
  intros Horder. unfold getOrderActivities. step. rewrite Horder. by step.
Qed.
End getOrderActivities_facts.

(** C8, on order 1 of the shop, which exists: whatever the Activity
    Logger's query would return, [getOrderActivities] throws a
    [ReferenceError] instead of returning it; for an order that does not
    exist it throws [OrderNotFound]. *)
Theorem getOrderActivities_existing_order_throws
    {Filters : Type} (logger : Z → Z → Filters → M (list OrderActivity))
    (actor : Z) (filters : Filters) :
  is_Some (db_Order shop !! 1) ∧
  getOrderActivities logger 1 actor filters shop
    = (inl (ReferenceError "orderActivityLogger"), shop) ∧
  message (ReferenceError "orderActivityLogger")
    = "orderActivityLogger is not defined" ∧
  getOrderActivities logger 9 actor filters shop = (inl OrderNotFound, shop).
Proof.
  split; [by eexists|]. split; [|split; [reflexivity|]].
  - by apply (getOrderActivities_unbound_logger logger shop 1 actor filters
                (an_order 1 pending 100)).
  - by apply getOrderActivities_missing.
Qed.

(** ** Further properties of the service *)

(** *** What a call does to the order table *)

(** Every call leaves the order table as it was or stores exactly one
    order: [createOrder] under a key no order had, the others under the key
    they address, which then held an order that was not cancelled. *)
Lemma call_orders c db :
  db_Order (call c db) = db_Order db ∨
  ∃ k order',
    db_Order (call c db) = <[k := order']> (db_Order db) ∧
    ((target c = None ∧ db_Order db !! k = None) ∨
     (target c = Some k ∧
      ∃ order, db_Order db !! k = Some order ∧ orderStatus order ≠ cancelled)).
Proof.
  destruct c as [params|id0 params actor ip browser|id0 actor ip browser
                |id0 actor ip browser|id0|id0]; cbn [call target];
    try (destruct (db_Order db !! id0) as [order0|] eqn:Horder0;
         [destruct (decide (orderStatus order0 = cancelled)) as [Hdead|Hlive]|]).
  - destruct (createOrder_cases db params)
      as [[e ->]|(r & db' & new & -> & Horders)]; cbn; [by left|].
    right. exists (next_id (db_Order db)), new.
    split; [done|]. left. split; [done|]. apply next_id_fresh.
  - rewrite (updateOrder_cancelled db id0 order0) by done. by left.
  - rewrite (updateOrder_run db id0 order0) by done. cbn. right. eauto 10.
  - rewrite updateOrder_missing by done. by left.
  - rewrite (cancelOrder_cancelled db id0 order0) by done. by left.
  - destruct (orderStatus order0) eqn:Hstatus; try done.
    + rewrite (cancelOrder_run db id0 order0) by (rewrite ?Hstatus; auto). cbn.
      right. do 2 eexists. split; [done|]. right. split; [done|].
      exists order0. by rewrite Hstatus.
    + rewrite (cancelOrder_run db id0 order0) by (rewrite ?Hstatus; auto). cbn.
      right. do 2 eexists. split; [done|]. right. split; [done|].
      exists order0. by rewrite Hstatus.
    + rewrite (cancelOrder_too_late db id0 order0) by (rewrite ?Hstatus; auto).
      by left.
    + rewrite (cancelOrder_too_late db id0 order0) by (rewrite ?Hstatus; auto).
      by left.
  - rewrite cancelOrder_missing by done. by left.
  - rewrite (processOrder_cancelled db id0 order0) by done. by left.
  - rewrite (processOrder_run db id0 order0) by done. cbn. right. eauto 10.
  - rewrite processOrder_missing by done. by left.
  - rewrite (shipOrder_cancelled db id0 order0) by done. by left.
  - rewrite (shipOrder_run db id0 order0) by done. cbn. right. eauto 10.
  - rewrite shipOrder_missing by done. by left.
  - rewrite (deliverOrder_cancelled db id0 order0) by done. by left.
  - rewrite (deliverOrder_run db id0 order0) by done. cbn. right. eauto 10.
  - rewrite deliverOrder_missing by done. by left.
Qed.

Lemma calls_cons c cs db : calls (c :: cs) db = calls cs (call c db).
Proof. reflexivity. Qed.

(** X1: [cancelled] is final.  Once an order is cancelled, no sequence of
    [createOrder], [updateOrder], [cancelOrder], [processOrder],
    [shipOrder] and [deliverOrder] calls changes any of its columns. *)
Theorem cancelled_is_final cs db id order :
  db_Order db !! id = Some order →
  orderStatus order = cancelled →
  db_Order (calls cs db) !! id = Some order.
Proof.
  intros Horder Hcancelled. revert db Horder.
  induction cs as [|c cs IH]; intros db Horder; [done|].
  rewrite calls_cons. apply IH.
  destruct (call_orders c db)
    as [->|(k & order' & -> & [[_ Hfresh]|[_ (order0 & Horder0 & Hlive)]])];
    [done|..]; rewrite lookup_insert_ne; congruence.
Qed.

Lemma cancelled_is_final_witness :
  db_Order
    (calls [UpdateOrder 3 (restatus pending) 2 "127.0.0.1" "Firefox";
            ProcessOrder 3 2 "127.0.0.1" "Firefox"; ShipOrder 3;
            DeliverOrder 3; CancelOrder 3 2 "127.0.0.1" "Firefox";
            CreateOrder (buy (Some 1))] shop) !! 3
    = Some (an_order 2 cancelled 300).
Proof.
  exact (cancelled_is_final _ shop 3 (an_order 2 cancelled 300) eq_refl eq_refl).
Defined.

(** X2: no order is ever removed.  An order that is stored is still stored
    after any sequence of calls. *)
Theorem orders_are_never_deleted cs db id :
  is_Some (db_Order db !! id) →
  is_Some (db_Order (calls cs db) !! id).
Proof.
  revert db. induction cs as [|c cs IH]; intros db Hstored; [done|].
  rewrite calls_cons. apply IH.
  destruct (call_orders c db) as [->|(k & order' & -> & _)]; [done|].
  rewrite lookup_insert_is_Some. destruct (decide (k = id)); auto.
Qed.

Lemma orders_are_never_deleted_witness :
  is_Some
    (db_Order
       (calls [CancelOrder 1 2 "127.0.0.1" "Firefox"; DeliverOrder 1;
               UpdateOrder 1 (reprice 0) 2 "127.0.0.1" "Firefox"] shop) !! 1).
Proof.
  apply (orders_are_never_deleted _ shop 1). by eexists.
Defined.

(** X3: a call touches no stored order but the one it addresses; in
    particular [createOrder] touches no stored order at all. *)
Theorem call_leaves_other_orders c db id :
  target c ≠ Some id →
  is_Some (db_Order db !! id) →
  db_Order (call c db) !! id = db_Order db !! id.
Proof.
  intros Hother [order Horder].
  destruct (call_orders c db)
    as [->|(k & order' & -> & [[_ Hfresh]|[Htarget _]])]; [done|..];
    rewrite lookup_insert_ne; congruence.
Qed.

Lemma call_leaves_other_orders_witness :
  db_Order (call (CancelOrder 1 2 "127.0.0.1" "Firefox") shop) !! 4
    = Some (an_order 2 processing 400) ∧
  db_Order (call (CreateOrder (buy (Some 2))) shop) !! 4
    = Some (an_order 2 processing 400).
Proof.
  split.
  - rewrite (call_leaves_other_orders _ shop 4); [reflexivity|discriminate|].
    by eexists.
  - rewrite (call_leaves_other_orders _ shop 4); [reflexivity|discriminate|].
    by eexists.
Defined.

(** *** Failing calls *)

(** X4: every [throw] statement of the service precedes the first write
    of its function: a call that one of them rejects (lines 51-65, 108-109,
    129-138, 175-176, 195-196, 204-205) leaves the database it started
    from.  [thrown] is the value of such a statement; the writes themselves
    are taken to go through. *)
Theorem thrown_call_changes_nothing c db e :
  thrown c db = Some e → call c db = db.
Proof.
  destruct c as [params|id0 params actor ip browser|id0 actor ip browser
                |id0 actor ip browser|id0|id0]; cbn [call thrown];
    try (destruct (db_Order db !! id0) as [order0|] eqn:Horder0;
         [destruct (decide (orderStatus order0 = cancelled)) as [Hdead|Hlive]|]).
  - destruct (createOrder_cases db params)
      as [[e' ->]|(r & db' & new & -> & _)]; [done|]. discriminate.
  - by rewrite (updateOrder_cancelled db id0 order0).
  - rewrite (updateOrder_run db id0 order0) by done. discriminate.
  - by rewrite updateOrder_missing.
  - by rewrite (cancelOrder_cancelled db id0 order0).
  - destruct (orderStatus order0) eqn:Hstatus; try done.
    + rewrite (cancelOrder_run db id0 order0) by (rewrite ?Hstatus; auto).
      discriminate.
    + rewrite (cancelOrder_run db id0 order0) by (rewrite ?Hstatus; auto).
      discriminate.
    + by rewrite (cancelOrder_too_late db id0 order0) by (rewrite ?Hstatus; auto).
    + by rewrite (cancelOrder_too_late db id0 order0) by (rewrite ?Hstatus; auto).
  - by rewrite cancelOrder_missing.
  - by rewrite (processOrder_cancelled db id0 order0).
  - rewrite (processOrder_run db id0 order0) by done. discriminate.
  - by rewrite processOrder_missing.
  - by rewrite (shipOrder_cancelled db id0 order0).
  - rewrite (shipOrder_run db id0 order0) by done. discriminate.
  - by rewrite shipOrder_missing.
  - by rewrite (deliverOrder_cancelled db id0 order0).
  - rewrite (deliverOrder_run db id0 order0) by done. discriminate.
  - by rewrite deliverOrder_missing.
Qed.

Lemma thrown_call_changes_nothing_witness :
  thrown (CancelOrder 2 2 "127.0.0.1" "Firefox") shop = Some OrderNotCancellable ∧
  call (CancelOrder 2 2 "127.0.0.1" "Firefox") shop = shop.
Proof.
  assert (Hthrown : thrown (CancelOrder 2 2 "127.0.0.1" "Firefox") shop
                    = Some OrderNotCancellable) by reflexivity.
  split; [exact Hthrown|].
  exact (thrown_call_changes_nothing _ shop _ Hthrown).
Defined.

(** X5: on a key under which no order is stored, [updateOrder],
    [cancelOrder], [processOrder], [shipOrder] and [deliverOrder] all throw
    'Order not found', whereas [getOrderById] returns nothing without
    throwing. *)
Theorem missing_order_is_reported db id params actor ip browser :
  db_Order db !! id = None →
  updateOrder id params actor ip browser db = (inl OrderNotFound, db) ∧
  cancelOrder id actor ip browser db = (inl OrderNotFound, db) ∧
  processOrder id actor ip browser db = (inl OrderNotFound, db) ∧
  shipOrder id db = (inl OrderNotFound, db) ∧
  deliverOrder id db = (inl OrderNotFound, db) ∧
  getOrderById id db = (inr None, db).
Proof.
  intros Hmissing.
  split; [by apply updateOrder_missing|]. split; [by apply cancelOrder_missing|].
  split; [by apply processOrder_missing|]. split; [by apply shipOrder_missing|].
  split; [by apply deliverOrder_missing|].
  by rewrite run_getOrderById, Hmissing.
Qed.

Lemma missing_order_is_reported_witness :
  shipOrder 9 shop = (inl OrderNotFound, shop) ∧
  getOrderById 9 shop = (inr None, shop) ∧
  message OrderNotFound = "Order not found".
Proof.
  destruct (missing_order_is_reported shop 9 no_change 2 "127.0.0.1" "Firefox"
              eq_refl) as (_ & _ & _ & Hship & _ & Hget).
  split; [exact Hship|]. split; [exact Hget|reflexivity].
Defined.

(** *** The status transitions do not enforce an order *)

Lemma set_orderStatus_twice s s' order :
  set_orderStatus s (set_orderStatus s' order) = set_orderStatus s order.
Proof. reflexivity. Qed.

(** One of [processOrder], [shipOrder], [deliverOrder] on a live order. *)
Lemma assigned_status_run c db id order s :
  target c = Some id →
  assigned_status c = Some s →
  db_Order db !! id = Some order →
  orderStatus order ≠ cancelled →
  thrown c db = None ∧
  db_Order (call c db) = <[id := set_orderStatus s order]> (db_Order db).
Proof.
  intros Htarget Hs Horder Hlive.
  destruct c; cbn in Htarget, Hs; simplify_eq; cbn [call thrown].
  - by rewrite (processOrder_run db _ order).
  - by rewrite (shipOrder_run db _ order).
  - by rewrite (deliverOrder_run db _ order).
Qed.

(** X6: [processOrder], [shipOrder] and [deliverOrder] accept an order in
    any status but [cancelled], so statuses can also move backwards: after
    any sequence of these calls on a live order, all succeeding, the order
    has the status of the last call and its other columns are as before. *)
Theorem last_transition_wins cs c db id order s :
  Forall (λ c, target c = Some id ∧ is_Some (assigned_status c)) (cs ++ [c]) →
  assigned_status c = Some s →
  db_Order db !! id = Some order →
  orderStatus order ≠ cancelled →
  db_Order (calls (cs ++ [c]) db) !! id = Some (set_orderStatus s order).
Proof.
  intros Hall Hs. revert db order.
  induction cs as [|c0 cs IH]; intros db order Horder Hlive.
  - apply Forall_singleton in Hall as [Htarget _]. cbn.
    destruct (assigned_status_run c db id order s) as [_ ->]; try done.
    apply lookup_insert_eq.
  - cbn [app] in *. apply Forall_cons in Hall as [[Htarget [s0 Hs0]] Hall].
    rewrite calls_cons.
    destruct (assigned_status_run c0 db id order s0) as [_ Horders]; try done.
    rewrite <- (set_orderStatus_twice s s0 order).
    apply (IH Hall).
    + rewrite Horders. apply lookup_insert_eq.
    + destruct c0; cbn in Hs0; simplify_eq; discriminate.
Qed.

Lemma last_transition_wins_witness :
  db_Order
    (calls ([DeliverOrder 1; ShipOrder 1]
              ++ [ProcessOrder 1 2 "127.0.0.1" "Firefox"]) shop) !! 1
    = Some (an_order 1 processing 100).
Proof.
  apply (last_transition_wins [DeliverOrder 1; ShipOrder 1]
           (ProcessOrder 1 2 "127.0.0.1" "Firefox") shop 1
           (an_order 1 pending 100) processing).
  - repeat constructor; by eexists.
  - reflexivity.
  - reflexivity.
  - discriminate.
Defined.

(** X7: [shipOrder] and [deliverOrder] on a live order store the new
    status and nothing else: they record no activity and touch neither
    products nor inventory, whereas [processOrder] records one
    'processed' activity naming the previous status. *)
Theorem ship_and_deliver_record_nothing db id order actor ip browser :
  db_Order db !! id = Some order →
  orderStatus order ≠ cancelled →
  (∃ db', shipOrder id db = (inr tt, db') ∧
     db_activities db' = db_activities db ∧
     db_journal db' = db_journal db ++ [SaveOrder id (set_orderStatus shipped order)] ∧
     db_Product db' = db_Product db ∧ db_Inventory db' = db_Inventory db) ∧
  (∃ db', deliverOrder id db = (inr tt, db') ∧
     db_activities db' = db_activities db ∧
     db_journal db'
       = db_journal db ++ [SaveOrder id (set_orderStatus delivered order)] ∧
     db_Product db' = db_Product db ∧ db_Inventory db' = db_Inventory db) ∧
  (∃ db' a, processOrder id actor ip browser db = (inr tt, db') ∧
     db_activities db' = db_activities db ++ [a] ∧
     act_action a = "processed" ∧ act_orderId a = id ∧ act_accountId a = actor ∧
     act_description a
       = "Processed order. Status changed from '"
           +:+ status_name (orderStatus order) +:+ "' to 'processing'").
Proof.
  intros Horder Hlive. split; [|split].
  - eexists. split; [by apply (shipOrder_run db id order)|]. by cbn.
  - eexists. split; [by apply (deliverOrder_run db id order)|]. by cbn.
  - do 2 eexists. split; [by apply (processOrder_run db id order)|]. by cbn.
Qed.

Lemma ship_and_deliver_record_nothing_witness :
  (∃ db', shipOrder 1 shop = (inr tt, db') ∧ db_activities db' = []) ∧
  (∃ db', deliverOrder 1 shop = (inr tt, db') ∧ db_activities db' = []) ∧
  (∃ db' a, processOrder 1 2 "127.0.0.1" "Firefox" shop = (inr tt, db') ∧
     db_activities db' = [a] ∧
     act_description a
       = "Processed order. Status changed from 'pending' to 'processing'").
Proof.
  destruct (ship_and_deliver_record_nothing shop 1 (an_order 1 pending 100) 2
              "127.0.0.1" "Firefox" eq_refl ltac:(discriminate))
    as ((db1 & Hship & Hlog1 & _) & (db2 & Hdeliver & Hlog2 & _)
          & (db3 & a & Hprocess & Hlog3 & _ & _ & _ & Hdescription)).
  split; [by exists db1|]. split; [by exists db2|].
  exists db3, a. split; [exact Hprocess|]. split; [exact Hlog3|exact Hdescription].
Defined.

(** *** updateOrder *)

(** X8: [updateOrder] is not bound by the guards of [cancelOrder].  On a
    [shipped] or [delivered] order [cancelOrder] throws, but an
    [updateOrder] whose [params] carry [orderStatus: 'cancelled'] succeeds
    and stores the order as cancelled; it leaves the product table alone
    (no [isAvailable = false]) and records an 'updated', not a 'cancelled',
    activity. *)
Theorem updateOrder_cancels_past_the_guard db id order params actor ip browser :
  db_Order db !! id = Some order →
  orderStatus order = shipped ∨ orderStatus order = delivered →
  u_orderStatus params = Some cancelled →
  cancelOrder id actor ip browser db = (inl OrderNotCancellable, db) ∧
  ∃ db' a,
    updateOrder id params actor ip browser db = (inr (assign order params), db') ∧
    orderStatus <$> db_Order db' !! id = Some cancelled ∧
    db_Product db' = db_Product db ∧
    db_activities db' = db_activities db ++ [a] ∧
    act_action a = "updated" ∧
    act_description a
      = "Updated order. Status changed from '"
          +:+ status_name (orderStatus order) +:+ "' to 'cancelled'".
Proof.
  intros Horder Hlate Hparams.
  assert (Hlive : orderStatus order ≠ cancelled) by (destruct Hlate; congruence).
  split; [by apply (cancelOrder_too_late db id order)|].
  do 2 eexists. split; [by apply (updateOrder_run db id order)|]. cbn.
  rewrite lookup_insert_eq. cbn. rewrite Hparams. cbn. done.
Qed.

Lemma updateOrder_cancels_past_the_guard_witness :
  cancelOrder 5 2 "127.0.0.1" "Firefox" shop = (inl OrderNotCancellable, shop) ∧
  ∃ db' a,
    updateOrder 5 (restatus cancelled) 2 "127.0.0.1" "Firefox" shop
      = (inr (an_order 1 cancelled 150), db') ∧
    isAvailable <$> db_Product db' !! 7 = Some true ∧
    db_activities db' = [a] ∧
    act_description a
      = "Updated order. Status changed from 'delivered' to 'cancelled'".
Proof.
  destruct (updateOrder_cancels_past_the_guard shop 5 (an_order 1 delivered 150)
              (restatus cancelled) 2 "127.0.0.1" "Firefox"
              eq_refl (or_intror eq_refl) eq_refl)
    as (Hcancel & db' & a & Hupdate & _ & Hproduct & Hlog & _ & Hdescription).
  split; [exact Hcancel|]. exists db', a.
  split; [exact Hupdate|]. split; [by rewrite Hproduct|].
  split; [exact Hlog|exact Hdescription].
Defined.

Lemma assign_no_change order : assign order no_change = order.
Proof. by destruct order. Qed.

(** X9: an [updateOrder] whose [params] carry nothing leaves the order
    table exactly as it was, and still saves the order and records an
    'updated' activity, whose description names the same status twice. *)
Theorem updateOrder_without_fields db id order actor ip browser :
  db_Order db !! id = Some order →
  orderStatus order ≠ cancelled →
  ∃ db' a,
    updateOrder id no_change actor ip browser db = (inr order, db') ∧
    db_Order db' = db_Order db ∧
    db_activities db' = db_activities db ++ [a] ∧
    act_action a = "updated" ∧
    act_description a
      = "Updated order. Status changed from '"
          +:+ status_name (orderStatus order) +:+ "' to '"
          +:+ status_name (orderStatus order) +:+ "'" ∧
    db_journal db' = db_journal db ++ [SaveOrder id order; RecordActivity a].
Proof.
  intros Horder Hlive. do 2 eexists.
  split.
  { rewrite (updateOrder_run db id order Horder Hlive). cbv zeta.
    rewrite assign_no_change. reflexivity. }
  cbn. split; [by apply insert_id|]. done.
Qed.

Lemma updateOrder_without_fields_witness :
  ∃ db' a,
    updateOrder 2 no_change 2 "127.0.0.1" "Firefox" shop
      = (inr (an_order 1 shipped 200), db') ∧
    db_Order db' = db_Order shop ∧
    db_activities db' = [a] ∧
    act_description a
      = "Updated order. Status changed from 'shipped' to 'shipped'".
Proof.
  destruct (updateOrder_without_fields shop 2 (an_order 1 shipped 200) 2
              "127.0.0.1" "Firefox" eq_refl ltac:(discriminate))
    as (db' & a & Hupdate & Horders & Hlog & _ & Hdescription & _).
  exists db', a. split; [exact Hupdate|]. split; [exact Horders|].
  split; [exact Hlog|exact Hdescription].
Defined.

(** X10: [updateOrder] can hand an order to another account: when its
    [params] carry an [AccountId], [trackOrderStatus] afterwards answers
    the new account and refuses every other one, the previous owner
    included. *)
Theorem updateOrder_reassigns_owner db id order params actor ip browser owner :
  db_Order db !! id = Some order →
  orderStatus order ≠ cancelled →
  u_AccountId params = Some owner →
  let db' := (updateOrder id params actor ip browser db).2 in
  trackOrderStatus id owner db'
    = (inr (default (orderStatus order) (u_orderStatus params)), db') ∧
  ∀ other, other ≠ owner →
    trackOrderStatus id other db' = (inl UnauthorizedAccess, db').
Proof.
  intros Horder Hlive Howner db'.
  assert (Hstored : db_Order db' !! id = Some (assign order params)).
  { unfold db'. rewrite (updateOrder_run db id order Horder Hlive). cbn.
    apply lookup_insert_eq. }
  split.
  - unfold trackOrderStatus. step. rewrite Hstored. cbn.
    rewrite bool_decide_eq_true_2 by (by rewrite Howner). by step.
  - intros other Hother. unfold trackOrderStatus. step. rewrite Hstored. cbn.
    rewrite bool_decide_eq_false_2 by (rewrite Howner; cbn; congruence).
    by step.
Qed.

Lemma updateOrder_reassigns_owner_witness :
  let give :=
    {| u_AccountId := Some 2; u_productId := None; u_quantity := None;
       u_totalAmount := None; u_orderStatus := None;
       u_shippingAddress := None; u_createdAt := None |} in
  let db' := (updateOrder 1 give 2 "127.0.0.1" "Firefox" shop).2 in
  trackOrderStatus 1 1 shop = (inr pending, shop) ∧
  trackOrderStatus 1 2 db' = (inr pending, db') ∧
  trackOrderStatus 1 1 db' = (inl UnauthorizedAccess, db').
Proof.
  intros give db'.
  destruct (updateOrder_reassigns_owner shop 1 (an_order 1 pending 100) give 2
              "127.0.0.1" "Firefox" 2 eq_refl ltac:(discriminate) eq_refl)
    as [Hnew Hold].
  split; [reflexivity|]. split; [exact Hnew|].
  apply Hold. discriminate.
Defined.

(** *** createOrder and the stock *)





(** What a call does to the inventory table: only a [createOrder] that
    passes its validations writes to it. *)
Lemma call_inventory c db :
  db_Inventory (call c db) = db_Inventory db ∨
  ∃ params inventory,
    c = CreateOrder params ∧
    List.find (has_productId (p_productId params)) (db_Inventory db)
      = Some inventory ∧
    orDefault (p_quantity params) 1 ≤ inv_quantity inventory ∧
    db_Inventory (call c db) =
      replace_inventory
        {| inv_id := inv_id inventory; inv_productId := inv_productId inventory;
           inv_quantity := inv_quantity inventory - orDefault (p_quantity params) 1 |}
        <$> db_Inventory db.
Proof.
  destruct c as [params|id0 params actor ip browser|id0 actor ip browser
                |id0 actor ip browser|id0|id0]; cbn [call];
    try (destruct (db_Order db !! id0) as [order0|] eqn:Horder0;
         [destruct (decide (orderStatus order0 = cancelled)) as [Hdead|Hlive]|]).
  - destruct (createOrder_inv db params)
      as [[e ->]|(account & product & inventory & Ha & Hp & Hs & Hi & Hq)];
      [by left|].
    right. exists params, inventory. split; [done|]. split; [done|].
    split; [done|].
    by rewrite (createOrder_run db params account product inventory).
  - rewrite (updateOrder_cancelled db id0 order0) by done. by left.
  - rewrite (updateOrder_run db id0 order0) by done. by left.
  - rewrite updateOrder_missing by done. by left.
  - rewrite (cancelOrder_cancelled db id0 order0) by done. by left.
  - destruct (orderStatus order0) eqn:Hstatus; try done.
    + rewrite (cancelOrder_run db id0 order0) by (rewrite ?Hstatus; auto).
      by left.
    + rewrite (cancelOrder_run db id0 order0) by (rewrite ?Hstatus; auto).
      by left.
    + rewrite (cancelOrder_too_late db id0 order0) by (rewrite ?Hstatus; auto).
      by left.
    + rewrite (cancelOrder_too_late db id0 order0) by (rewrite ?Hstatus; auto).
      by left.
  - rewrite cancelOrder_missing by done. by left.
  - rewrite (processOrder_cancelled db id0 order0) by done. by left.
  - rewrite (processOrder_run db id0 order0) by done. by left.
  - rewrite processOrder_missing by done. by left.
  - rewrite (shipOrder_cancelled db id0 order0) by done. by left.
  - rewrite (shipOrder_run db id0 order0) by done. by left.
  - rewrite shipOrder_missing by done. by left.
  - rewrite (deliverOrder_cancelled db id0 order0) by done. by left.
  - rewrite (deliverOrder_run db id0 order0) by done. by left.
  - rewrite deliverOrder_missing by done. by left.
Qed.

(** X13: the stock never goes negative.  If no inventory row has a
    negative quantity, none has after any sequence of calls, whatever the
    quantities requested (negative ones included) and whether the calls
    return or throw. *)
Theorem inventory_never_negative cs db :
  Forall (λ r, 0 ≤ inv_quantity r) (db_Inventory db) →
  Forall (λ r, 0 ≤ inv_quantity r) (db_Inventory (calls cs db)).
Proof.
  revert db. induction cs as [|c cs IH]; intros db Hdb; [done|].
  rewrite calls_cons. apply IH.
  destruct (call_inventory c db)
    as [->|(params & inventory & _ & _ & Hq & ->)]; [done|].
  apply Forall_fmap. eapply Forall_impl; [exact Hdb|].
  intros r Hr. unfold compose, replace_inventory. cbn in *.
  case_bool_decide; cbn; lia.
Qed.

Lemma inventory_never_negative_witness :
  Forall (λ r, 0 ≤ inv_quantity r)
    (db_Inventory
       (calls [CreateOrder (buy (Some 4)); CreateOrder (buy (Some 4));
               CreateOrder (buy (Some (-3))); CreateOrder (buy None);
               CancelOrder 6 1 "127.0.0.1" "Firefox"] shop)).
Proof.
  apply inventory_never_negative. repeat constructor. cbn. lia.
Defined.

Lemma inv_id_unique (l : list Inventory) (r1 r2 : Inventory) :
  NoDup (inv_id <$> l) → r1 ∈ l → r2 ∈ l → inv_id r1 = inv_id r2 → r1 = r2.
Proof.
  induction l as [|r l IH]; [by intros _ ?%elem_of_nil|].
  rewrite fmap_cons, NoDup_cons, !elem_of_cons.
  intros [Hfresh Hl] [->|H1] [->|H2] Hid; auto.
  - destruct Hfresh. rewrite Hid. by apply list_elem_of_fmap_2.
  - destruct Hfresh. rewrite <- Hid. by apply list_elem_of_fmap_2.
Qed.

Lemma find_fmap_unaffected (f : Inventory → bool) (g : Inventory → Inventory) l :
  (∀ r, r ∈ l → f (g r) = f r ∧ (f r = true → g r = r)) →
  List.find f (g <$> l) = List.find f l.
Proof.
  induction l as [|r l IH]; intros Hg; [done|]. cbn.
  destruct (Hg r) as [Hf Hfix]; [by left|]. rewrite Hf.
  destruct (f r) eqn:Hr.
  - by rewrite Hfix.
  - apply IH. intros r' Hr'. apply Hg. by right.
Qed.

(** X14: with inventory rows under distinct keys, [createOrder] for one
    product leaves the stock of every other product as it was. *)
Theorem createOrder_leaves_other_stock db params pid :
  NoDup (inv_id <$> db_Inventory db) →
  pid ≠ p_productId params →
  List.find (has_productId pid) (db_Inventory (createOrder params db).2)
    = List.find (has_productId pid) (db_Inventory db).
Proof.
  intros Hkeys Hother.
  destruct (call_inventory (CreateOrder params) db)
    as [Hsame|(params' & inventory & [= <-] & Hfind & _ & Hreplaced)];
    cbn [call] in *; [by rewrite Hsame|].
  rewrite Hreplaced. apply find_fmap_unaffected. intros r Hr.
  apply find_some in Hfind as [Hin Hpid%bool_decide_eq_true].
  apply list_elem_of_In in Hin.
  unfold replace_inventory. cbn. case_bool_decide as Hid; [|done].
  assert (r = inventory) as -> by (by apply (inv_id_unique (db_Inventory db))).
  unfold has_productId. cbn.
  rewrite !bool_decide_eq_false_2 by congruence. done.
Qed.

Lemma createOrder_leaves_other_stock_witness :
  let chair_stock := {| inv_id := 2; inv_productId := 6; inv_quantity := 9 |} in
  let db := with_Inventory (λ l, l ++ [chair_stock]) shop in
  List.find (has_productId 7) (db_Inventory (createOrder (buy (Some 3)) db).2)
    = Some {| inv_id := 1; inv_productId := 7; inv_quantity := 2 |} ∧
  List.find (has_productId 6) (db_Inventory (createOrder (buy (Some 3)) db).2)
    = Some chair_stock.
Proof.
  intros chair_stock db. split; [reflexivity|].
  rewrite (createOrder_leaves_other_stock db (buy (Some 3)) 6).
  - reflexivity.
  - apply (bool_decide_unpack _). reflexivity.
  - discriminate.
Defined.

(** X15: [createOrder] never reads [isAvailable].  Flipping that flag on
    any product, as [cancelOrder] does, changes neither whether a request
    is accepted, nor the error it gets, nor the order it returns: only
    [productStatus] decides. *)
Theorem createOrder_ignores_isAvailable db params pid b :
  (createOrder params (with_Product (alter (set_isAvailable b) pid) db)).1
    = (createOrder params db).1.
Proof.
  set (db' := with_Product (alter (set_isAvailable b) pid) db).
  assert (Hproducts : ∀ k,
    db_Product db' !! k
      = (λ p, if decide (pid = k) then set_isAvailable b p else p)
          <$> db_Product db !! k).
  { intros k. unfold db'. cbn. rewrite lookup_alter.
    destruct (decide (pid = k)) as [->|Hk];
      destruct (db_Product db !! k); cbn; by repeat case_decide. }
  destruct (db_Account db !! p_AccountId params) as [account|] eqn:Ha.
  2: { by rewrite (createOrder_no_account db), (createOrder_no_account db'). }
  destruct (db_Product db !! p_productId params) as [product|] eqn:Hp.
  2: { rewrite (createOrder_no_product db params account),
         (createOrder_no_product db' params account); try done.
       by rewrite Hproducts, Hp. }
  set (product' :=
         if decide (pid = p_productId params) then set_isAvailable b product
         else product).
  assert (Hp' : db_Product db' !! p_productId params = Some product')
    by (by rewrite Hproducts, Hp).
  assert (Hsame : productStatus product' = productStatus product
                  ∧ name product' = name product ∧ price product' = price product).
  { unfold product'. by case_decide. }
  destruct Hsame as (Hstatus & Hname & Hprice).
  destruct (decide (productStatus product = "active")) as [Hs|Hs].
  2: { rewrite (createOrder_inactive_product db params account Ha product),
         (createOrder_inactive_product db' params account Ha product');
         try done. by rewrite Hstatus. }
  assert (Hs' : productStatus product' = "active") by congruence.
  destruct (List.find (has_productId (p_productId params)) (db_Inventory db))
    as [inventory|] eqn:Hi.
  2: { by rewrite (createOrder_no_inventory db params account Ha product),
         (createOrder_no_inventory db' params account Ha product'). }
  destruct (decide (orDefault (p_quantity params) 1 > inv_quantity inventory))
    as [Hq|Hq].
  { by rewrite
      (createOrder_short_stock db params account Ha product Hp Hs inventory),
      (createOrder_short_stock db' params account Ha product' Hp' Hs' inventory). }
  rewrite (createOrder_run db params account product inventory),
    (createOrder_run db' params account product' inventory); try done; try lia.
  cbn. by rewrite Hname, Hprice.
Qed.

(** *** Reading back what was written *)

(** X16: an order that [createOrder] accepted can be read back at once,
    whatever further columns [params] carried: [getOrderById] of the
    returned key gives the order, [trackOrderStatus] answers its account
    with the status it was stored with ([pending] unless [params] carried
    an [orderStatus]), and the account's own listing contains it exactly
    when that status is not [cancelled]. *)
Theorem created_order_is_readable db extra params account product inventory :
  db_Account db !! p_AccountId params = Some account →
  db_Product db !! p_productId params = Some product →
  productStatus product = "active" →
  List.find (has_productId (p_productId params)) (db_Inventory db)
    = Some inventory →
  orDefault (p_quantity params) 1 ≤ inv_quantity inventory →
  (∀ i, x_id extra = Some i → db_Order db !! i = None) →
  ∃ detail db',
    createOrder_spread extra params db = (inr (Some detail), db') ∧
    getOrderById (det_id detail) db' = (inr (Some (det_order detail)), db') ∧
    trackOrderStatus (det_id detail) (p_AccountId params) db'
      = (inr (default pending (x_orderStatus extra)), db') ∧
    ∃ rows, getAllOrders "User" (p_AccountId params) db' = (inr rows, db') ∧
            (select_row "User" db' (det_id detail, det_order detail) ∈ rows
             ↔ x_orderStatus extra ≠ Some cancelled).
Proof.
  intros Ha Hp Hs Hi Hq Hfree.
  pose proof (createOrder_spread_run db extra params account product inventory
                Ha Hp Hs Hi Hq Hfree) as Hrun. cbv zeta in Hrun.
  do 2 eexists. split; [exact Hrun|].
  match goal with |- context [getOrderById _ ?d] => set (db' := d) end.
  cbn [det_id det_order].
  set (id := default (next_id (db_Order db)) (x_id extra)).
  match goal with |- context [inr (Some ?o)] => set (order := o) end.
  assert (Hstored : db_Order db' !! id = Some order) by apply lookup_insert_eq.
  split; [by rewrite run_getOrderById, Hstored|]. split.
  - unfold trackOrderStatus. step. rewrite Hstored. cbn.
    rewrite bool_decide_eq_true_2 by done. by step.
  - destruct (Order_findAll_rows "User"
                (whereCondition "User" (p_AccountId params)) db')
      as (rows & Hlist & _ & Hrows).
    exists rows. split; [exact Hlist|]. rewrite Hrows. split.
    + intros (id' & order' & Hin & [_ Hlive]%whereCondition_User & Heq).
      assert (id' = id) as -> by (by injection Heq).
      rewrite Hstored in Hin. injection Hin as <-.
      intros Hcancelled. apply Hlive. cbn. by rewrite Hcancelled.
    + intros Hlive. exists id, order. split; [exact Hstored|]. split; [|done].
      apply whereCondition_User. split; [done|]. cbn.
      destruct (x_orderStatus extra) as [[]|]; cbn; congruence.
Qed.

Lemma created_order_is_readable_witness :
  let extra :=
    {| x_id := None; x_orderStatus := Some cancelled; x_createdAt := None |} in
  ∃ detail db',
    createOrder_spread extra (buy (Some 3)) shop = (inr (Some detail), db') ∧
    trackOrderStatus (det_id detail) 1 db' = (inr cancelled, db') ∧
    ∃ rows, getAllOrders "User" 1 db' = (inr rows, db') ∧
            select_row "User" db' (det_id detail, det_order detail) ∉ rows.
Proof.
  intros extra.
  destruct (created_order_is_readable shop extra (buy (Some 3)) alice lamp
              lamp_stock eq_refl eq_refl eq_refl eq_refl ltac:(cbn; lia)
              ltac:(discriminate))
    as (detail & db' & Hrun & _ & Htrack & rows & Hlist & Hlisted).
  exists detail, db'. split; [exact Hrun|]. split; [exact Htrack|].
  exists rows. split; [exact Hlist|].
  intros Hin. apply Hlisted in Hin. by apply Hin.
Defined.

(** X17: cancelling an order returns nothing to the stock.  After a
    [createOrder] that was accepted and stored the order as [pending] or
    [processing] ([params] carried no other [orderStatus]), a
    [cancelOrder] of that order succeeds and leaves the inventory table as
    the creation left it, with the reduced quantity; the product then has
    [isAvailable = false] while its [productStatus] is still 'active'.
    Quantity, stock and their difference are safe integers. *)
Theorem cancelOrder_does_not_restock
    db extra params account product inventory actor ip browser :
  db_Account db !! p_AccountId params = Some account →
  db_Product db !! p_productId params = Some product →
  productStatus product = "active" →
  List.find (has_productId (p_productId params)) (db_Inventory db)
    = Some inventory →
  orDefault (p_quantity params) 1 ≤ inv_quantity inventory →
  (∀ i, x_id extra = Some i → db_Order db !! i = None) →
  default pending (x_orderStatus extra) = pending
    ∨ default pending (x_orderStatus extra) = processing →
  safe_integer (orDefault (p_quantity params) 1) →
  safe_integer (inv_quantity inventory) →
  safe_integer (inv_quantity inventory - orDefault (p_quantity params) 1) →
  let db1 := (createOrder_spread extra params db).2 in
  let id := default (next_id (db_Order db)) (x_id extra) in
  ∃ order db2,
    cancelOrder id actor ip browser db1 = (inr order, db2) ∧
    orderStatus order = cancelled ∧
    db_Inventory db2 = db_Inventory db1 ∧
    List.find (has_productId (p_productId params)) (db_Inventory db2)
      = Some {| inv_id := inv_id inventory;
                inv_productId := inv_productId inventory;
                inv_quantity :=
                  inv_quantity inventory - orDefault (p_quantity params) 1 |} ∧
    db_Product db2 !! p_productId params = Some (set_isAvailable false product) ∧
    productStatus (set_isAvailable false product) = "active".
Proof.
  intros Ha Hp Hs Hi Hq Hfree Hearly _ _ _ db1 id.
  pose proof (createOrder_spread_run db extra params account product inventory
                Ha Hp Hs Hi Hq Hfree) as Hrun. cbv zeta in Hrun.
  unfold db1. rewrite Hrun. cbn [snd].
  match goal with |- context [cancelOrder _ _ _ _ ?d] => set (db' := d) end.
  set (order :=
         {| AccountId := p_AccountId params; productId := p_productId params;
            quantity := orDefault (p_quantity params) 1;
            totalAmount := price product * orDefault (p_quantity params) 1;
            orderStatus := default pending (x_orderStatus extra);
            shippingAddress := p_shippingAddress params;
            createdAt := default (db_clock db) (x_createdAt extra) |}).
  assert (Hstored : db_Order db' !! id = Some order) by apply lookup_insert_eq.
  do 2 eexists. split.
  { apply (cancelOrder_run db' id order Hstored); [|exact Hearly].
    cbn. destruct Hearly as [-> | ->]; discriminate. }
  cbn. split; [done|]. split; [done|].
  split; [by apply (find_replace_inventory _ inventory)|].
  split; [|done]. by rewrite lookup_alter_eq, Hp.
Qed.

Lemma cancelOrder_does_not_restock_witness :
  let extra :=
    {| x_id := None; x_orderStatus := Some processing; x_createdAt := None |} in
  ∃ order db2,
    cancelOrder 6 1 "127.0.0.1" "Firefox"
      (createOrder_spread extra (buy (Some 3)) shop).2 = (inr order, db2) ∧
    List.find (has_productId 7) (db_Inventory db2)
      = Some {| inv_id := 1; inv_productId := 7; inv_quantity := 2 |} ∧
    isAvailable <$> db_Product db2 !! 7 = Some false.
Proof.
  intros extra.
  destruct (cancelOrder_does_not_restock shop extra (buy (Some 3)) alice lamp
              lamp_stock 1 "127.0.0.1" "Firefox"
              eq_refl eq_refl eq_refl eq_refl ltac:(cbn; lia)
              ltac:(discriminate) (or_intror eq_refl)
              (conj eq_refl eq_refl) (conj eq_refl eq_refl)
              (conj eq_refl eq_refl))
    as (order & db2 & Hcancel & _ & _ & Hstock & Hproduct & _).
  exists order, db2. split; [exact Hcancel|]. split; [exact Hstock|].
  change (db_Product db2 !! 7 = Some (set_isAvailable false lamp)) in Hproduct.
  rewrite Hproduct. reflexivity.
Defined.

(** *** The listing *)

Lemma NoDup_fst_filter (f : Z * Order → bool) (l : list (Z * Order)) :
  NoDup l.*1 → NoDup (List.filter f l).*1.
Proof.
  induction l as [|r l IH]; [done|]. cbn. rewrite NoDup_cons.
  intros [Hfresh Hl]. destruct (f r); [|by auto]. cbn.
  apply NoDup_cons. split; [|by auto].
  intros (r' & Hkey & [Hin _]%list_elem_of_In%filter_In)%list_elem_of_fmap.
  apply Hfresh, list_elem_of_fmap. exists r'. split; [done|].
  by apply list_elem_of_In.
Qed.

(** X18: [getAllOrders] lists every order at most once: the keys of the
    rows it returns are pairwise distinct, and it leaves the database as
    it was. *)
Theorem getAllOrders_lists_orders_once db role accountId :
  ∃ rows, getAllOrders role accountId db = (inr rows, db) ∧
          NoDup (row_id <$> rows).
Proof.
  eexists. split; [reflexivity|].
  rewrite <- list_fmap_compose.
  change (row_id ∘ select_row role db) with (@fst Z Order).
  rewrite merge_sort_Permutation.
  apply NoDup_fst_filter, NoDup_fst_map_to_list.
Qed.

(** X19: an order that [cancelOrder] has cancelled is gone from the
    listing of every role and account, yet [trackOrderStatus] still answers
    its account, with [cancelled]. *)
Theorem cancelled_order_is_unlisted db id order actor ip browser role accountId :
  db_Order db !! id = Some order →
  orderStatus order = pending ∨ orderStatus order = processing →
  let db' := (cancelOrder id actor ip browser db).2 in
  (∃ rows, getAllOrders role accountId db' = (inr rows, db') ∧
           ∀ r, r ∈ rows → row_id r ≠ id) ∧
  trackOrderStatus id (AccountId order) db' = (inr cancelled, db').
Proof.
  intros Horder Hearly db'.
  assert (Hstored : db_Order db' !! id = Some (set_orderStatus cancelled order)).
  { unfold db'. rewrite (cancelOrder_run db id order Horder);
      [|destruct Hearly; congruence|done].
    apply lookup_insert_eq. }
  split.
  - destruct (Order_findAll_rows role (whereCondition role accountId) db')
      as (rows & Hlist & _ & Hrows).
    exists rows. split; [exact Hlist|].
    intros r (id' & order' & Hin & Hcond & ->)%Hrows Heq. cbn in Heq. subst id'.
    rewrite Hstored in Hin. injection Hin as <-.
    destruct (decide (role = "User")) as [->|Hrole].
    + by apply whereCondition_User in Hcond as [_ ?].
    + apply whereCondition_other in Hcond; [|done].
      by apply status_listed in Hcond.
  - unfold trackOrderStatus. step. rewrite Hstored. cbn.
    rewrite bool_decide_eq_true_2 by done. by step.
Qed.

Lemma cancelled_order_is_unlisted_witness :
  let db' := (cancelOrder 1 1 "127.0.0.1" "Firefox" shop).2 in
  (∃ rows, getAllOrders "Admin" 0 db' = (inr rows, db') ∧
           ∀ r, r ∈ rows → row_id r ≠ 1) ∧
  trackOrderStatus 1 1 db' = (inr cancelled, db').
Proof.
  exact (cancelled_order_is_unlisted shop 1 (an_order 1 pending 100) 1
           "127.0.0.1" "Firefox" "Admin" 0 eq_refl (or_introl eq_refl)).
Defined.

(** X20: for a key under which no order is stored, [trackOrderStatus]
    throws the same 'Order not found or unauthorized access' as for an
    order of another account, whoever asks: the two cases cannot be told
    apart, and neither is reported as 'Order not found'. *)
Theorem trackOrderStatus_missing_order db id accountId :
  db_Order db !! id = None →
  trackOrderStatus id accountId db = (inl UnauthorizedAccess, db) ∧
  message UnauthorizedAccess ≠ message OrderNotFound.
Proof.
  intros Hmissing. split; [|discriminate].
  unfold trackOrderStatus. step. rewrite Hmissing. cbn. by step.
Qed.

Lemma trackOrderStatus_missing_order_witness :
  trackOrderStatus 9 1 shop = (inl UnauthorizedAccess, shop) ∧
  trackOrderStatus 9 1 shop = trackOrderStatus 4 1 shop.
Proof.
  destruct (trackOrderStatus_missing_order shop 9 1 eq_refl) as [Hmissing _].
  split; [exact Hmissing|]. rewrite Hmissing. reflexivity.
Defined.
